(** * ziflex/throttle: a fixed-window rate limiter

    A shallow embedding of the Go package [throttle] and the properties its
    specification states about it.

    The package exists in several revisions that share one window algorithm:
    - [Throttle]: the current one ([throttle.go], the [Clock] interface, the
      [WithClock] option and the HTTP round tripper);
    - [ThrottleOffset]: the generic revision with a clock-offset option, which
      calls package [time] directly;
    - [ThrottleGeneric]: the generic revision whose [Do] runs the callback
      under the lock;
    - [ThrottleWait]: the earliest revision, with [Wait] in place of
      [Acquire] and the window algorithm in its body.

    Go code mutates the throttler through a pointer and talks to a clock.  Here
    a method takes the throttler value and returns the updated one, inside a
    small monad [M] that threads the outside world and records every call made
    on a clock. *)

From Stdlib Require Import ZArith NArith List Bool Lia.
Import ListNotations.

Open Scope Z_scope.

(** ** Machine integers *)

Module GoInt.

(** [int64] arithmetic wraps around in two's complement. *)
Definition wrap_int64 (z : Z) : Z := (z + 2 ^ 63) mod 2 ^ 64 - 2 ^ 63.

Definition int64_sub (a b : Z) : Z := wrap_int64 (a - b).
Definition int64_add (a b : Z) : Z := wrap_int64 (a + b).

(** [uint64] arithmetic wraps around modulo 2^64. *)
Definition uint64_max : N := 18446744073709551615%N.

Definition uint64_add (a b : N) : N := ((a + b) mod 18446744073709551616)%N.

End GoInt.

(** ** Package [time], as far as the throttler uses it

    An instant is the number of nanoseconds since the zero instant
    (January 1, year 1, 00:00:00 UTC); a duration is an [int64] number of
    nanoseconds.  The wall and monotonic readings of a Go [time.Time] are not
    told apart. *)

Module time.

Definition Time : Type := Z.
Definition Duration : Type := Z.

Definition minDuration : Duration := - 2 ^ 63.
Definition maxDuration : Duration := 2 ^ 63 - 1.

Definition Nanosecond : Duration := 1.
Definition Millisecond : Duration := 1000000.
Definition Second : Duration := 1000000000.

Definition IsZero (t : Time) : bool := t =? 0.

(** [t.Sub(u)] is [t - u], saturated at the largest and smallest duration. *)
Definition Sub (t u : Time) : Duration :=
  if t - u <? minDuration then minDuration
  else if maxDuration <? t - u then maxDuration
  else t - u.

Definition Add (t : Time) (d : Duration) : Time := t + d.

End time.

Import GoInt time.

(** ** Effects: the world, the calls made on a clock, and how a call ends *)

(** One call made on a clock, with what [Now] answered or what [Sleep] was
    asked for. *)
Inductive ClockCall : Type :=
| CallNow (t : Time)
| CallSleep (d : Duration).

Definition is_sleep (c : ClockCall) : bool :=
  match c with CallSleep _ => true | CallNow _ => false end.

(** A Go call returns, panics, or never comes back. *)
Inductive outcome (A : Type) : Type :=
| Returns (a : A)
| Panics
| Blocks.

Arguments Returns {A} a.
Arguments Panics {A}.
Arguments Blocks {A}.

Definition outcome_map {A B : Type} (f : A -> B) (o : outcome A) : outcome B :=
  match o with
  | Returns a => Returns (f a)
  | Panics => Panics
  | Blocks => Blocks
  end.

Section Effects.

Context {W : Type}.

Record Run (A : Type) : Type := mkRun {
  res : outcome A;
  world : W;
  calls : list ClockCall
}.

Arguments mkRun {A} res world calls.

Definition M (A : Type) : Type := W -> Run A.

Definition ret {A : Type} (a : A) : M A :=
  fun w => mkRun (Returns a) w [].

Definition panic {A : Type} : M A :=
  fun w => mkRun Panics w [].

Definition block {A : Type} : M A :=
  fun w => mkRun Blocks w [].

Definition bind {A B : Type} (m : M A) (k : A -> M B) : M B :=
  fun w =>
    let r := m w in
    match res _ r with
    | Returns a =>
        let r' := k a (world _ r) in
        mkRun (res _ r') (world _ r') (calls _ r ++ calls _ r')
    | Panics => mkRun Panics (world _ r) (calls _ r)
    | Blocks => mkRun Blocks (world _ r) (calls _ r)
    end.

(** The [Clock] interface: an implementation reads and changes the world. *)
Record Clock : Type := {
  Now : W -> Time * W;
  Sleep : Duration -> W -> W
}.

(** A method call on a [Clock] interface value; on a nil interface it
    panics. *)
Definition invoke_Now (clock : option Clock) : M Time :=
  fun w =>
    match clock with
    | Some c => let (t, w') := Now c w in mkRun (Returns t) w' [CallNow t]
    | None => mkRun Panics w []
    end.

Definition invoke_Sleep (clock : option Clock) (dur : Duration) : M unit :=
  fun w =>
    match clock with
    | Some c => mkRun (Returns tt) (Sleep c dur w) [CallSleep dur]
    | None => mkRun Panics w []
    end.

End Effects.

Arguments Run W A : clear implicits.
Arguments M W A : clear implicits.
Arguments Clock W : clear implicits.
Arguments mkRun {W A} res world calls.
Arguments res {W A} r.
Arguments world {W A} r.
Arguments calls {W A} r.

Declare Scope go_scope.
Delimit Scope go_scope with go.
Notation "x <- c1 ;; c2" := (bind c1 (fun x => c2))
  (at level 61, c1 at next level, right associativity) : go_scope.
Notation "c1 ;; c2" := (bind c1 (fun _ => c2))
  (at level 61, right associativity) : go_scope.
Open Scope go_scope.

(** ** Package [sync]: the mutex, seen from one thread of control *)

Module sync.

Record Mutex : Type := { locked : bool }.

Definition unlocked : Mutex := {| locked := false |}.

Section Mutex.
Context {W : Type}.

(** [Lock] on a held mutex waits for another thread of control to unlock
    it. *)
Definition Lock (m : Mutex) : M W Mutex :=
  if locked m then block else ret {| locked := true |}.

(** [Unlock] of a mutex that is not held is a fatal error. *)
Definition Unlock (m : Mutex) : M W Mutex :=
  if locked m then ret {| locked := false |} else panic.
End Mutex.

End sync.

(** ** The current revision: [throttle.go], [Clock], [WithClock], the round
       tripper *)

Module Throttle.

Section Throttle.

Context {W : Type}.

(** Package [time]'s [Now] and [Sleep]: the process's real clock. *)
Variable systemClock : Clock W.

Definition windowSize : Duration := Second.

Record Throttler : Type := {
  mu : sync.Mutex;
  window : Time;
  clock : option (Clock W);
  counter : N;
  limit : N
}.

Definition set_mu (t : Throttler) (m : sync.Mutex) : Throttler :=
  {| mu := m; window := window t; clock := clock t;
     counter := counter t; limit := limit t |}.

Definition set_window (t : Throttler) (w : Time) : Throttler :=
  {| mu := mu t; window := w; clock := clock t;
     counter := counter t; limit := limit t |}.

Definition set_counter (t : Throttler) (c : N) : Throttler :=
  {| mu := mu t; window := window t; clock := clock t;
     counter := c; limit := limit t |}.

(** *** The clock and the options *)

Definition DefaultClock : Clock W :=
  {| Now := Now systemClock; Sleep := Sleep systemClock |}.

Record options : Type := { opt_clock : option (Clock W) }.

Definition Option : Type := options -> options.

Definition buildOptions (setters : list Option) : options :=
  let opts := fold_left (fun opts setter => setter opts) setters
                        {| opt_clock := None |} in
  match opt_clock opts with
  | None => {| opt_clock := Some DefaultClock |}
  | Some _ => opts
  end.

Definition WithClock (clock : option (Clock W)) : Option :=
  fun _ => {| opt_clock := clock |}.

(** *** The throttler *)

Definition New (limit : N) (setters : list Option) : Throttler :=
  let opts := buildOptions setters in
  {| mu := sync.unlocked; window := 0; clock := opt_clock opts;
     counter := 0; limit := limit |}.

Definition reset (t : Throttler) (window : Time) : Throttler :=
  set_counter (set_window t window) 1.

Definition advance (t : Throttler) : M W Throttler :=
  if (limit t =? 0)%N then ret t
  else
    let clock := clock t in
    now <- invoke_Now clock ;;
    let t := if IsZero (window t) then set_window t now else t in
    let windowDur := Sub now (window t) in
    if windowSize <? windowDur then ret (reset t now)
    else
      let nextCount := uint64_add (counter t) 1 in
      if (nextCount <=? limit t)%N then ret (set_counter t nextCount)
      else
        let sleepDur := int64_sub windowSize windowDur in
        invoke_Sleep clock sleepDur ;;
        now' <- invoke_Now clock ;;
        ret (reset t now').

Definition Acquire (t : Throttler) : M W Throttler :=
  m <- sync.Lock (mu t) ;;
  t <- advance (set_mu t m) ;;
  m <- sync.Unlock (mu t) ;;
  ret (set_mu t m).

(** *** [transport.go] *)

Section Transport.

Variables Request Response Err : Type.

(** [http.RoundTripper]: one method, which answers a request with a
    response and an error. *)
Definition RoundTripper : Type := Request -> M W (Response * Err).

Record throttledRoundTripper : Type := {
  transport : RoundTripper;
  throttler : Throttler
}.

Definition set_throttler (t : throttledRoundTripper) (th : Throttler)
  : throttledRoundTripper :=
  {| transport := transport t; throttler := th |}.

Definition RoundTrip (t : throttledRoundTripper) (request : Request)
  : M W (throttledRoundTripper * (Response * Err)) :=
  th <- Acquire (throttler t) ;;
  r <- transport t request ;;
  ret (set_throttler t th, r).

Definition NewRoundTripperWith (transport : RoundTripper)
           (throttler : Throttler) : throttledRoundTripper :=
  {| transport := transport; throttler := throttler |}.

Definition NewRoundTripper (transport : RoundTripper) (limit : N)
           (setters : list Option) : throttledRoundTripper :=
  NewRoundTripperWith transport (New limit setters).

End Transport.

End Throttle.

Arguments Throttler W : clear implicits.
Arguments options W : clear implicits.
Arguments Option W : clear implicits.

End Throttle.

(** ** The generic revision with a clock offset

    [New[T]], [Do] and [advance] of this revision call package [time]
    directly and add [clockOffset(sleepDur)] to the time they sleep. *)

Module ThrottleOffset.

Section ThrottleOffset.

Context {W : Type}.

(** Package [time]'s [Now] and [Sleep]. *)
Variable systemClock : Clock W.

Definition windowSize : Duration := Second.

Definition ClockOffsetProvider : Type := Duration -> Duration.

(** *** The options; a function value that was never set is nil *)

Record options : Type := { opt_clockOffset : option ClockOffsetProvider }.

Definition Option : Type := options -> options.

Definition buildOptions (setters : list Option) : options :=
  fold_left (fun opts setter => setter opts) setters
            {| opt_clockOffset := None |}.

(** [WithStaticClockOffset] of the options file stores a closure without
    argument, [func() time.Duration], which is not a [ClockOffsetProvider]
    of this revision's throttler; only the dynamic setter is given here. *)
Definition WithDynamicClockOffset (provider : option ClockOffsetProvider)
  : Option :=
  fun _ => {| opt_clockOffset := provider |}.

(** *** The throttler *)

Record Throttler : Type := {
  mu : sync.Mutex;
  window : Time;
  clockOffset : option ClockOffsetProvider;
  counter : N;
  limit : N
}.

Definition set_mu (t : Throttler) (m : sync.Mutex) : Throttler :=
  {| mu := m; window := window t; clockOffset := clockOffset t;
     counter := counter t; limit := limit t |}.

Definition set_window (t : Throttler) (w : Time) : Throttler :=
  {| mu := mu t; window := w; clockOffset := clockOffset t;
     counter := counter t; limit := limit t |}.

Definition set_counter (t : Throttler) (c : N) : Throttler :=
  {| mu := mu t; window := window t; clockOffset := clockOffset t;
     counter := c; limit := limit t |}.

Definition New (limit : N) (setters : list Option) : Throttler :=
  let opts := buildOptions setters in
  {| mu := sync.unlocked; window := 0;
     clockOffset := opt_clockOffset opts;
     counter := 0; limit := limit |}.

Definition reset (t : Throttler) (window : Time) : Throttler :=
  set_counter (set_window t window) 1.

(** Calling a nil function value panics. *)
Definition call_clockOffset (f : option ClockOffsetProvider)
           (sleepDur : Duration) : M W Duration :=
  match f with
  | Some provider => ret (provider sleepDur)
  | None => panic
  end.

Definition advance (t : Throttler) : M W Throttler :=
  if (limit t =? 0)%N then ret t
  else
    now <- invoke_Now (Some systemClock) ;;
    let t := if IsZero (window t) then set_window t now else t in
    let windowDur := Sub now (window t) in
    if windowSize <? windowDur then ret (reset t now)
    else
      let nextCount := uint64_add (counter t) 1 in
      if (nextCount <=? limit t)%N then ret (set_counter t nextCount)
      else
        let sleepDur := int64_sub windowSize windowDur in
        offset <- call_clockOffset (clockOffset t) sleepDur ;;
        invoke_Sleep (Some systemClock) (int64_add sleepDur offset) ;;
        now' <- invoke_Now (Some systemClock) ;;
        ret (reset t now').

Section Do.

(** [T] is the callback's result type, [Err] stands for [error]. *)
Variables T Err : Type.

Definition Fn : Type := M W (T * Err).

Definition Do (t : Throttler) (fn : Fn) : M W (Throttler * (T * Err)) :=
  m <- sync.Lock (mu t) ;;
  t <- advance (set_mu t m) ;;
  m <- sync.Unlock (mu t) ;;
  r <- fn ;;
  ret (set_mu t m, r).

End Do.

End ThrottleOffset.

Arguments Throttler : clear implicits.

End ThrottleOffset.

(** ** The generic revision whose [Do] holds the lock across the callback

    This [advance] has no pass-through for a zero limit. *)

Module ThrottleGeneric.

Section ThrottleGeneric.

Context {W : Type}.

(** Package [time]'s [Now] and [Sleep]. *)
Variable systemClock : Clock W.

Record Throttler : Type := {
  mu : sync.Mutex;
  window : Time;
  counter : N;
  limit : N
}.

Definition set_mu (t : Throttler) (m : sync.Mutex) : Throttler :=
  {| mu := m; window := window t; counter := counter t;
     limit := limit t |}.

Definition set_window (t : Throttler) (w : Time) : Throttler :=
  {| mu := mu t; window := w; counter := counter t; limit := limit t |}.

Definition set_counter (t : Throttler) (c : N) : Throttler :=
  {| mu := mu t; window := window t; counter := c; limit := limit t |}.

Definition New (limit : N) : Throttler :=
  {| mu := sync.unlocked; window := 0; counter := 0; limit := limit |}.

Definition reset (t : Throttler) (window : Time) : Throttler :=
  set_counter (set_window t window) 1.

Definition advance (t : Throttler) : M W Throttler :=
  now <- invoke_Now (Some systemClock) ;;
  let t := if IsZero (window t) then set_window t now else t in
  let sinceLastCall := Sub now (window t) in
  if Second <? sinceLastCall then ret (reset t now)
  else
    let nextCount := uint64_add (counter t) 1 in
    if (nextCount <=? limit t)%N then ret (set_counter t nextCount)
    else
      invoke_Sleep (Some systemClock) (int64_sub Second sinceLastCall) ;;
      now' <- invoke_Now (Some systemClock) ;;
      ret (reset t now').

Section Do.

Variables T Err : Type.

Definition Fn : Type := M W (T * Err).

Definition Do (t : Throttler) (fn : Fn) : M W (Throttler * (T * Err)) :=
  m <- sync.Lock (mu t) ;;
  t <- advance (set_mu t m) ;;
  r <- fn ;;
  m <- sync.Unlock (mu t) ;;
  ret (set_mu t m, r).

End Do.

End ThrottleGeneric.

End ThrottleGeneric.

(** ** The test double of the package's tests

    [mockClock] answers [Now] with its current time and moves that time only
    when [Sleep] is called, by exactly the duration asked for. *)

Module Mock.

Record mockClock : Type := {
  currentTime : Time;
  sleepCalls : list Duration
}.

Definition mock_Now (m : mockClock) : Time * mockClock :=
  (currentTime m, m).

Definition mock_Sleep (dur : Duration) (m : mockClock) : mockClock :=
  {| currentTime := Add (currentTime m) dur;
     sleepCalls := sleepCalls m ++ [dur] |}.

(** The mock as a [Clock] of a world that is the mock alone. *)
Definition clock : Clock mockClock :=
  {| Now := mock_Now; Sleep := mock_Sleep |}.

Definition at_time (t : Time) : mockClock :=
  {| currentTime := t; sleepCalls := [] |}.

End Mock.

(** ** Callers: sequences of calls and what is observed of them *)

Module Caller.

Import Throttle.

(** What a caller observes of one admission. *)
Inductive Admission : Type :=
| AdmittedImmediately
| Waited (d : Duration).

(** The admission read off the clock calls of one [Acquire]: it waited when
    it called [Sleep], for the duration it asked. *)
Definition admission_of (cs : list ClockCall) : Admission :=
  match filter is_sleep cs with
  | CallSleep d :: _ => Waited d
  | _ => AdmittedImmediately
  end.

(** The last instant a call read from its clock. *)
Fixpoint last_reading (cs : list ClockCall) : option Time :=
  match cs with
  | [] => None
  | c :: rest =>
      match last_reading rest with
      | Some t => Some t
      | None => match c with CallNow t => Some t | CallSleep _ => None end
      end
  end.

Section Calls.

Context {W : Type}.

(** [n] calls of [Acquire], one after the other. *)
Fixpoint Acquire_times (n : nat) (t : Throttler W) : M W (Throttler W) :=
  match n with
  | O => ret t
  | S n' => t' <- Acquire t ;; Acquire_times n' t'
  end.

(** The data-model invariant of the specification, at an instant [now]:
    with a positive limit, the window is unset, or the counter is within
    the limit and the window is not older than [windowSize]. *)
Definition window_invariant (t : Throttler W) (now : Time) : Prop :=
  (0 < limit t)%N ->
  IsZero (window t) = true \/
  ((counter t <= limit t)%N /\ Sub now (window t) <= windowSize).

End Calls.

(** A test that drives a throttler whose clock is a substitute: the clock
    has a state [S] of its own inside the world, and the rest of the world
    (real time, the scheduler) is [E]. *)
Section Substitute.

Context {S E : Type}.

Variable sub_Now : S -> Time * S.
Variable sub_Sleep : Duration -> S -> S.

Definition substitute : Clock (S * E) :=
  {| Now := fun w => let (t, s') := sub_Now (fst w) in (t, (s', snd w));
     Sleep := fun d w => (sub_Sleep d (fst w), snd w) |}.

(** A step of the test: an admission, or an operation on the substitute
    clock. *)
Inductive Step : Type :=
| StepAcquire
| StepClock (f : S -> S).

Fixpoint run_steps (steps : list Step) (t : Throttler (S * E))
         (w : S * E) : list Admission * Throttler (S * E) * (S * E) :=
  match steps with
  | [] => ([], t, w)
  | StepAcquire :: rest =>
      let r := Acquire t w in
      match res r with
      | Returns t' =>
          let '(out, tf, wf) := run_steps rest t' (world r) in
          (admission_of (calls r) :: out, tf, wf)
      | _ => ([], t, world r)
      end
  | StepClock f :: rest => run_steps rest t (f (fst w), snd w)
  end.

End Substitute.

End Caller.

(** ** Concrete throttlers on the test double *)

Module Examples.

Import Throttle.

(** An instant that is not the zero instant. *)
Definition T0 : Time := 1700000000 * Second.

(** The mock at [now], having been slept on for the durations [sl]. *)
Definition mock_at (now : Time) (sl : list Duration) : Mock.mockClock :=
  {| Mock.currentTime := now; Mock.sleepCalls := sl |}.

(** [throttle.New(limit, throttle.WithClock(mock))].  In a world that is
    the mock alone, the mock also stands in for package [time]. *)
Definition mock_throttler (limit : N) : Throttler Mock.mockClock :=
  New Mock.clock limit [WithClock (Some Mock.clock)].

(** A throttler on the mock whose window opened at [window] and has
    admitted [counter] calls. *)
Definition open_window (limit counter : N) (window : Time)
  : Throttler Mock.mockClock :=
  {| mu := sync.unlocked; window := window; clock := Some Mock.clock;
     counter := counter; limit := limit |}.

Definition offset_window (offset : option ThrottleOffset.ClockOffsetProvider)
           (limit counter : N) (window : Time) : ThrottleOffset.Throttler :=
  {| ThrottleOffset.mu := sync.unlocked;
     ThrottleOffset.window := window;
     ThrottleOffset.clockOffset := offset;
     ThrottleOffset.counter := counter;
     ThrottleOffset.limit := limit |}.

(** A world with the mock and, next to it, real time. *)
Definition wall : Clock (Mock.mockClock * Time) :=
  {| Now := fun w => (snd w, w);
     Sleep := fun d w => (fst w, Add (snd w) d) |}.

Definition confined_throttler (limit : N)
  : Throttler (Mock.mockClock * Time) :=
  New wall limit
      [WithClock (Some (Caller.substitute Mock.mock_Now Mock.mock_Sleep))].

(** A callback and a transport that answer without looking at anything. *)
Definition fn_ok : ThrottleGeneric.Fn (W := Mock.mockClock) Z (option nat) :=
  ret (42, None).

Definition fn_failing
  : ThrottleGeneric.Fn (W := Mock.mockClock) Z (option nat) :=
  ret (0, Some 7%nat).

Definition echo : RoundTripper (W := Mock.mockClock) Z Z (option nat) :=
  fun request => ret (request, Some 3%nat).

End Examples.

(** ** A burst of calls, as the package's tests observe it *)

Module Burst.

Import Throttle.

Section Burst.

Context {W : Type}.

(** The instants at which [n] calls made back to back complete: after
    each [Acquire] the caller reads the clock [clk]. *)
Fixpoint completions (clk : Clock W) (n : nat) (t : Throttler W) (w : W)
  : list Time :=
  match n with
  | O => []
  | S n' =>
      let r := Acquire t w in
      match res r with
      | Returns t' =>
          let (ts, w') := Now clk (world r) in
          ts :: completions clk n' t' w'
      | _ => []
      end
  end.

(** The same for calls that are spaced out: before each call the caller
    sleeps on the clock for the next of [gaps]. *)
Fixpoint spaced_completions (clk : Clock W) (gaps : list Duration)
         (t : Throttler W) (w : W) : list Time :=
  match gaps with
  | [] => []
  | gap :: rest =>
      let r := Acquire t (Sleep clk gap w) in
      match res r with
      | Returns t' =>
          let (ts, w') := Now clk (world r) in
          ts :: spaced_completions clk rest t' w'
      | _ => []
      end
  end.

End Burst.

(** The one-[windowSize] window, counted from [start], an instant falls
    in, and how many of the instants of [l] fall in window [k]. *)
Definition window_index (start ts : Time) : Z := (ts - start) / windowSize.

Definition completions_in (start : Time) (k : Z) (l : list Time) : nat :=
  length (filter (fun ts => window_index start ts =? k) l).

End Burst.

(** ** The earliest revision: [Wait]

    [Wait] locks, defers the unlock and runs the window algorithm in its own
    body, on package [time]; it has no pass-through for a zero limit. *)

Module ThrottleWait.

Section ThrottleWait.

Context {W : Type}.

(** Package [time]'s [Now] and [Sleep]. *)
Variable systemClock : Clock W.

Record Throttler : Type := {
  mu : sync.Mutex;
  window : Time;
  counter : N;
  limit : N
}.

Definition set_mu (t : Throttler) (m : sync.Mutex) : Throttler :=
  {| mu := m; window := window t; counter := counter t;
     limit := limit t |}.

Definition set_window (t : Throttler) (w : Time) : Throttler :=
  {| mu := mu t; window := w; counter := counter t; limit := limit t |}.

Definition set_counter (t : Throttler) (c : N) : Throttler :=
  {| mu := mu t; window := window t; counter := c; limit := limit t |}.

Definition New (limit : N) : Throttler :=
  {| mu := sync.unlocked; window := 0; counter := 0; limit := limit |}.

Definition reset (t : Throttler) (window : Time) : Throttler :=
  set_counter (set_window t window) 1.

(** The deferred [Unlock] runs when the body returns. *)
Definition Wait (t : Throttler) : M W Throttler :=
  m <- sync.Lock (mu t) ;;
  let t := set_mu t m in
  t <- (now <- invoke_Now (Some systemClock) ;;
        let t := if IsZero (window t) then set_window t now else t in
        let sinceLastCall := Sub now (window t) in
        if Second <? sinceLastCall then ret (reset t now)
        else
          let nextCount := uint64_add (counter t) 1 in
          if (nextCount <=? limit t)%N then ret (set_counter t nextCount)
          else
            let leftInWindow := int64_sub Second sinceLastCall in
            invoke_Sleep (Some systemClock) leftInWindow ;;
            now' <- invoke_Now (Some systemClock) ;;
            ret (reset t now')) ;;
  m <- sync.Unlock (mu t) ;;
  ret (set_mu t m).

End ThrottleWait.

End ThrottleWait.

(** ** One throttler state seen by each revision *)

Module Revisions.

Section Revisions.

Context {W : Type}.

(** The state of a current throttler as the other revisions hold it: the
    same mutex, window, counter and limit, without the clock. *)
Definition to_wait (t : Throttle.Throttler W) : ThrottleWait.Throttler :=
  {| ThrottleWait.mu := Throttle.mu t;
     ThrottleWait.window := Throttle.window t;
     ThrottleWait.counter := Throttle.counter t;
     ThrottleWait.limit := Throttle.limit t |}.

Definition to_generic (t : Throttle.Throttler W)
  : ThrottleGeneric.Throttler :=
  {| ThrottleGeneric.mu := Throttle.mu t;
     ThrottleGeneric.window := Throttle.window t;
     ThrottleGeneric.counter := Throttle.counter t;
     ThrottleGeneric.limit := Throttle.limit t |}.

Definition to_offset (offset : option ThrottleOffset.ClockOffsetProvider)
           (t : Throttle.Throttler W) : ThrottleOffset.Throttler :=
  {| ThrottleOffset.mu := Throttle.mu t;
     ThrottleOffset.window := Throttle.window t;
     ThrottleOffset.clockOffset := offset;
     ThrottleOffset.counter := Throttle.counter t;
     ThrottleOffset.limit := Throttle.limit t |}.

End Revisions.

End Revisions.

(** ** Callers of the round tripper, and callers that pace themselves *)

Module Traffic.

Import Throttle.

Section Traffic.

Context {W : Type}.

Variables Request Response Err : Type.

(** The requests of a list sent one after the other through the same round
    tripper, as [http.Client] does in the package's tests. *)
Fixpoint RoundTrip_all (t : throttledRoundTripper Request Response Err)
         (requests : list Request)
  : M W (throttledRoundTripper Request Response Err *
         list (Response * Err)) :=
  match requests with
  | [] => ret (t, [])
  | request :: rest =>
      p <- RoundTrip _ _ _ t request ;;
      q <- RoundTrip_all (fst p) rest ;;
      ret (fst q, snd p :: snd q)
  end.

(** A transport that answers [h request] at once and leaves the world
    alone. *)
Definition immediate (h : Request -> Response * Err)
  : RoundTripper (W := W) Request Response Err :=
  fun request => ret (h request).

End Traffic.

(** The instants at which calls arrive that start at [start] and are
    preceded each by the next of [gaps]. *)
Fixpoint arrivals (start : Time) (gaps : list Duration) : list Time :=
  match gaps with
  | [] => []
  | gap :: rest => Add start gap :: arrivals (Add start gap) rest
  end.

End Traffic.

(** * Properties *)

Import Throttle.

(** ** Arithmetic of the machine integers *)

Lemma uint64_add_exact (a b : N) :
  (a + b <= uint64_max)%N -> uint64_add a b = (a + b)%N.
Proof.
  unfold uint64_add, uint64_max. intros H. apply N.mod_small. lia.
Qed.

Lemma wrap_int64_exact (z : Z) :
  minDuration <= z <= maxDuration -> wrap_int64 z = z.
Proof.
  unfold wrap_int64, minDuration, maxDuration. intros H.
  rewrite Z.mod_small; lia.
Qed.

Lemma Sub_bounds (t u : Time) : minDuration <= Sub t u <= maxDuration.
Proof.
  unfold Sub, minDuration, maxDuration.
  destruct (Z.ltb_spec (t - u) (- 2 ^ 63)); [lia|].
  destruct (Z.ltb_spec (2 ^ 63 - 1) (t - u)); lia.
Qed.

Lemma Sub_self (t : Time) : Sub t t = 0.
Proof. unfold Sub. rewrite Z.sub_diag. reflexivity. Qed.

Lemma mutex_unlocked (m : sync.Mutex) :
  sync.locked m = false -> m = sync.unlocked.
Proof. destruct m as [b]. simpl. intros ->. reflexivity. Qed.

(** ** Running a sequence of calls *)

Section BindEquations.

Context {W A B : Type}.

Implicit Types (m : M W A) (k : A -> M W B).

Lemma bind_Returns m k (w w1 : W) (a : A) (cs : list ClockCall) :
  m w = mkRun (Returns a) w1 cs ->
  bind m k w =
    mkRun (res (k a w1)) (world (k a w1)) (cs ++ calls (k a w1)).
Proof. unfold bind. intros ->. reflexivity. Qed.

Lemma bind_res_Returns m k (w : W) (a : A) :
  res (m w) = Returns a ->
  bind m k w =
    let r := k a (world (m w)) in
    mkRun (res r) (world r) (calls (m w) ++ calls r).
Proof. unfold bind. intros ->. reflexivity. Qed.

Lemma bind_Panics m k (w w1 : W) (cs : list ClockCall) :
  m w = mkRun Panics w1 cs -> bind m k w = mkRun Panics w1 cs.
Proof. unfold bind. intros ->. reflexivity. Qed.

Lemma bind_Blocks m k (w w1 : W) (cs : list ClockCall) :
  m w = mkRun Blocks w1 cs -> bind m k w = mkRun Blocks w1 cs.
Proof. unfold bind. intros ->. reflexivity. Qed.

End BindEquations.

(** ** [Acquire] of the current revision as straight-line code *)

Section AcquireEquations.

Context {W : Type}.

Implicit Types (t : Throttler W) (c : Clock W) (w : W).

Lemma Acquire_pass_through t w :
  sync.locked (mu t) = false -> limit t = 0%N ->
  Acquire t w = mkRun (Returns t) w [].
Proof.
  intros Hmu Hl. destruct t as [m win clk cnt lim]. simpl in *.
  apply mutex_unlocked in Hmu. subst.
  reflexivity.
Qed.

Lemma Acquire_limited t c w :
  sync.locked (mu t) = false -> clock t = Some c -> limit t <> 0%N ->
  Acquire t w =
    let (now, w1) := Now c w in
    let t1 := if IsZero (window t) then set_window t now else t in
    let windowDur := Sub now (window t1) in
    if windowSize <? windowDur
    then mkRun (Returns (reset t1 now)) w1 [CallNow now]
    else
      let nextCount := uint64_add (counter t) 1 in
      if (nextCount <=? limit t)%N
      then mkRun (Returns (set_counter t1 nextCount)) w1 [CallNow now]
      else
        let sleepDur := int64_sub windowSize windowDur in
        let (now', w2) := Now c (Sleep c sleepDur w1) in
        mkRun (Returns (reset t1 now')) w2
              [CallNow now; CallSleep sleepDur; CallNow now'].
Proof.
  intros Hmu Hc Hl. destruct t as [m win clk cnt lim]. simpl in *.
  apply mutex_unlocked in Hmu. subst.
  unfold Acquire, advance. simpl.
  destruct (N.eqb_spec lim 0) as [|_]; [contradiction|].
  unfold bind, invoke_Now at 1. simpl.
  destruct (Now c w) as [now w1]. simpl.
  destruct (IsZero win); simpl;
    (destruct (windowSize <? _); simpl; [reflexivity|]);
    (destruct (_ <=? lim)%N; simpl; [reflexivity|]);
    destruct (Now c (Sleep c _ w1)) as [now' w2]; reflexivity.
Qed.

(** [Acquire] on a throttler with a clock and a free mutex always
    returns. *)
Lemma Acquire_returns t c w :
  sync.locked (mu t) = false -> clock t = Some c ->
  exists t', res (Acquire t w) = Returns t' /\
             sync.locked (mu t') = false /\ clock t' = Some c /\
             limit t' = limit t.
Proof.
  intros Hmu Hc. destruct (N.eq_dec (limit t) 0) as [Hl|Hl].
  - rewrite Acquire_pass_through by assumption. exists t. auto.
  - rewrite (Acquire_limited t c w Hmu Hc Hl).
    destruct (Now c w) as [now w1]. cbv zeta.
    destruct (IsZero (window t)); simpl;
      (destruct (windowSize <? _); [simpl; eauto 6|]);
      (destruct (_ <=? _)%N; [simpl; eauto 6|]);
      destruct (Now c _) as [now' w2]; simpl; eauto 6.
Qed.

(** Every throttler [New] builds, whatever the setters, has a free mutex and
    a clock; [Acquire_returns] carries both through every call. *)
Lemma New_ready (sys : Clock W) (lim : N) (setters : list (Option W)) :
  sync.locked (mu (New sys lim setters)) = false /\
  limit (New sys lim setters) = lim /\
  exists c, clock (New sys lim setters) = Some c.
Proof.
  split; [reflexivity|]. split; [reflexivity|].
  unfold New, buildOptions. cbn [clock].
  match goal with
  | |- context [fold_left ?f ?l ?a] => generalize (fold_left f l a)
  end.
  intros opts. destruct (opt_clock opts) as [c|] eqn:Hopt.
  - exists c. exact Hopt.
  - exists (DefaultClock sys). reflexivity.
Qed.

End AcquireEquations.

(** ** The other revisions as straight-line code *)

Section OffsetEquations.

Context {W : Type}.
Variable sys : Clock W.

Lemma Offset_advance_limited (t : ThrottleOffset.Throttler) (w : W) :
  ThrottleOffset.limit t <> 0%N ->
  ThrottleOffset.advance sys t w =
    let (now, w1) := Now sys w in
    let t1 := if IsZero (ThrottleOffset.window t)
              then ThrottleOffset.set_window t now else t in
    let windowDur := Sub now (ThrottleOffset.window t1) in
    if ThrottleOffset.windowSize <? windowDur
    then mkRun (Returns (ThrottleOffset.reset t1 now)) w1 [CallNow now]
    else
      let nextCount := uint64_add (ThrottleOffset.counter t) 1 in
      if (nextCount <=? ThrottleOffset.limit t)%N
      then mkRun (Returns (ThrottleOffset.set_counter t1 nextCount)) w1
                 [CallNow now]
      else
        let sleepDur := int64_sub ThrottleOffset.windowSize windowDur in
        match ThrottleOffset.clockOffset t with
        | None => mkRun Panics w1 [CallNow now]
        | Some provider =>
            let dur := int64_add sleepDur (provider sleepDur) in
            let (now', w2) := Now sys (Sleep sys dur w1) in
            mkRun (Returns (ThrottleOffset.reset t1 now')) w2
                  [CallNow now; CallSleep dur; CallNow now']
        end.
Proof.
  intros Hl. destruct t as [m win off cnt lim]. simpl in *.
  unfold ThrottleOffset.advance. simpl.
  destruct (N.eqb_spec lim 0) as [|_]; [contradiction|].
  unfold bind, invoke_Now at 1. simpl.
  destruct (Now sys w) as [now w1]. simpl.
  destruct (IsZero win); simpl;
    (destruct (ThrottleOffset.windowSize <? _); simpl; [reflexivity|]);
    (destruct (_ <=? lim)%N; simpl; [reflexivity|]);
    (destruct off as [provider|]; simpl; [|reflexivity]);
    destruct (Now sys (Sleep sys _ w1)) as [now' w2]; reflexivity.
Qed.

(** Without options, [New] leaves the clock offset nil. *)
Lemma Offset_New_default (limit : N) :
  ThrottleOffset.clockOffset (ThrottleOffset.New limit []) = None.
Proof. reflexivity. Qed.

End OffsetEquations.

Section GenericEquations.

Context {W : Type}.
Variable sys : Clock W.

(** [advance] of the generic revision always returns, and leaves the mutex
    as it found it. *)
Lemma Generic_advance_returns (t : ThrottleGeneric.Throttler) (w : W) :
  exists t', res (ThrottleGeneric.advance sys t w) = Returns t' /\
             ThrottleGeneric.mu t' = ThrottleGeneric.mu t.
Proof.
  destruct t as [m win cnt lim].
  unfold ThrottleGeneric.advance, bind, invoke_Now at 1. simpl.
  destruct (Now sys w) as [now w1]. simpl.
  destruct (IsZero win); simpl;
    (destruct (Second <? _); simpl; [eauto|]);
    (destruct (_ <=? lim)%N; simpl; [eauto|]);
    destruct (Now sys (Sleep sys _ w1)) as [now' w2]; simpl; eauto.
Qed.

End GenericEquations.

(** ** A zero limit *)

Section Unlimited.

Context {W : Type}.

Lemma Acquire_times_pass_through (n : nat) (t : Throttler W) (w : W) :
  sync.locked (mu t) = false -> limit t = 0%N ->
  Caller.Acquire_times n t w = mkRun (Returns t) w [].
Proof.
  intros Hmu Hl. induction n as [|n IH]; simpl.
  - reflexivity.
  - unfold bind. rewrite Acquire_pass_through by assumption. simpl.
    rewrite IH. reflexivity.
Qed.

End Unlimited.

(** C3.  A throttler constructed with limit 0: however many times [Acquire]
    is called, every call returns and none of them calls the clock's
    [Sleep]. *)
Theorem Acquire_unlimited_never_sleeps
        (W : Type) (sys : Clock W) (setters : list (Option W))
        (n : nat) (w : W) :
  let r := Caller.Acquire_times n (New sys 0 setters) w in
  (exists t, res r = Returns t) /\
  forall d, ~ In (CallSleep d) (calls r).
Proof.
  cbv zeta. rewrite Acquire_times_pass_through by reflexivity. simpl.
  split; [eauto | tauto].
Qed.

(** C10.  A throttler constructed with limit 0 is frozen: any number of
    calls of [Acquire] returns the throttler as it was constructed (window,
    counter and every other field), makes no call on the clock, neither [Now]
    nor [Sleep], and leaves the world as it was. *)
Theorem Acquire_unlimited_frozen
        (W : Type) (sys : Clock W) (setters : list (Option W))
        (n : nat) (w : W) :
  Caller.Acquire_times n (New sys 0 setters) w =
    mkRun (Returns (New sys 0 setters)) w [].
Proof.
  apply Acquire_times_pass_through; reflexivity.
Qed.

(** ** Inside an open window *)

(** C4.  Limit positive, window open and not expired, [counter + 1 <= limit]:
    [Acquire] returns the throttler with [counter + 1] committed and the
    window start untouched; the only call on the clock is the one [Now], so
    [Sleep] is not called. *)
Theorem Acquire_admits_within_window
        (W : Type) (t : Throttler W) (c : Clock W) (w w1 : W) (now : Time) :
  sync.locked (mu t) = false ->
  clock t = Some c ->
  Now c w = (now, w1) ->
  (0 < limit t)%N ->
  (limit t <= uint64_max)%N ->
  IsZero (window t) = false ->
  Sub now (window t) <= windowSize ->
  (counter t + 1 <= limit t)%N ->
  Acquire t w =
    mkRun (Returns (set_counter t (counter t + 1))) w1 [CallNow now] /\
  window (set_counter t (counter t + 1)) = window t.
Proof.
  intros Hmu Hc Hnow Hpos Hmax Hopen Hin Hroom.
  split; [|reflexivity].
  rewrite (Acquire_limited t c w Hmu Hc) by lia.
  rewrite Hnow, Hopen. cbv zeta.
  destruct (Z.ltb_spec windowSize (Sub now (window t))); [lia|].
  rewrite uint64_add_exact by lia.
  destruct (N.leb_spec (counter t + 1) (limit t)); [reflexivity | lia].
Qed.

(** C2.  Limit positive, window open.  A call whose elapsed time is exactly
    [windowSize] is counted against the current window: with room left the
    counter of that window is incremented and the window kept, and with the
    window full the caller waits out the remaining zero time before the new
    window starts, at what [Now] answers after that sleep and with counter
    1.  A call whose elapsed time is greater than [windowSize] starts a
    fresh window at once: no [Sleep], the window start is the instant read
    and the counter is 1, whatever it was; limit, clock and mutex are as
    before.  Whenever the elapsed time is at most [windowSize], the call
    either stays in the window or sleeps.  [nextCount] is the [uint64] sum
    the code computes. *)
Theorem window_boundary_policy
        (W : Type) (t : Throttler W) (c : Clock W) (w w1 : W) (now : Time) :
  sync.locked (mu t) = false ->
  clock t = Some c ->
  Now c w = (now, w1) ->
  (0 < limit t)%N ->
  IsZero (window t) = false ->
  let elapsed := Sub now (window t) in
  let nextCount := uint64_add (counter t) 1 in
  (elapsed = windowSize -> (nextCount <= limit t)%N ->
   Acquire t w = mkRun (Returns (set_counter t nextCount)) w1 [CallNow now]
   /\ window (set_counter t nextCount) = window t
   /\ counter (set_counter t nextCount) = nextCount)
  /\
  (elapsed = windowSize -> (limit t < nextCount)%N ->
   let now' := fst (Now c (Sleep c 0 w1)) in
   Acquire t w =
     mkRun (Returns (reset t now'))
           (snd (Now c (Sleep c 0 w1)))
           [CallNow now; CallSleep 0; CallNow now']
   /\ window (reset t now') = now'
   /\ counter (reset t now') = 1%N)
  /\
  (windowSize < elapsed ->
   Acquire t w = mkRun (Returns (reset t now)) w1 [CallNow now]
   /\ window (reset t now) = now
   /\ counter (reset t now) = 1%N
   /\ limit (reset t now) = limit t
   /\ clock (reset t now) = clock t
   /\ mu (reset t now) = mu t)
  /\
  (elapsed <= windowSize ->
   exists t', res (Acquire t w) = Returns t' /\
     ((window t' = window t /\ counter t' = nextCount) \/
      In (CallSleep (int64_sub windowSize elapsed)) (calls (Acquire t w)))).
Proof.
  intros Hmu Hc Hnow Hpos Hopen elapsed nextCount.
  assert (Heq := Acquire_limited t c w Hmu Hc).
  rewrite Hnow, Hopen in Heq. cbv zeta in Heq.
  fold elapsed nextCount in Heq.
  rewrite Heq by lia. clear Heq.
  split; [|split; [|split]].
  - intros He Hroom. rewrite He.
    destruct (Z.ltb_spec windowSize windowSize); [lia|].
    destruct (N.leb_spec nextCount (limit t)); [|lia].
    split; [reflexivity|]. split; reflexivity.
  - intros He Hfull now'. rewrite He.
    destruct (Z.ltb_spec windowSize windowSize); [lia|].
    destruct (N.leb_spec nextCount (limit t)); [lia|].
    change (int64_sub windowSize windowSize) with 0.
    subst now'.
    destruct (Now c (Sleep c 0 w1)) as [now' w2].
    split; [reflexivity|]. split; reflexivity.
  - intros He.
    destruct (Z.ltb_spec windowSize elapsed); [|lia].
    destruct t as [[l] win cl cnt lim]; simpl in Hmu; subst l.
    repeat (split; [reflexivity|]). reflexivity.
  - intros He.
    destruct (Z.ltb_spec windowSize elapsed); [lia|].
    destruct (N.leb_spec nextCount (limit t)).
    + eexists. split; [reflexivity|]. left. split; reflexivity.
    + destruct (Now c (Sleep c _ w1)) as [now' w2].
      eexists. split; [reflexivity|]. right. simpl. auto.
Qed.

(** ** A saturated window *)

(** C5.  Limit positive, window open, not expired and saturated
    ([nextCount], the [uint64] sum [counter + 1] of the code, exceeds the
    limit).  The current revision calls [Sleep] once, for
    [windowSize - elapsed] as [int64] subtraction computes it, which is the
    exact difference unless the clock ran backwards by some 292 years; the
    window then starts at what [Now] answers after the sleep, and the counter
    is 1.  The clock-offset revision does the same on package [time] and
    sleeps for that duration plus [clockOffset] of it. *)
Theorem saturated_window_waits (W : Type) :
  (forall (t : Throttler W) (c : Clock W) (w w1 w2 : W) (now now' : Time),
      sync.locked (mu t) = false ->
      clock t = Some c ->
      (0 < limit t)%N ->
      IsZero (window t) = false ->
      Now c w = (now, w1) ->
      let elapsed := Sub now (window t) in
      let sleepDur := int64_sub windowSize elapsed in
      elapsed <= windowSize ->
      (limit t < uint64_add (counter t) 1)%N ->
      Now c (Sleep c sleepDur w1) = (now', w2) ->
      Acquire t w =
        mkRun (Returns (reset t now')) w2
              [CallNow now; CallSleep sleepDur; CallNow now'] /\
      window (reset t now') = now' /\
      counter (reset t now') = 1%N /\
      (windowSize - maxDuration <= elapsed ->
       sleepDur = windowSize - elapsed))
  /\
  (forall (sys : Clock W) (t : ThrottleOffset.Throttler)
          (provider : ThrottleOffset.ClockOffsetProvider)
          (w w1 w2 : W) (now now' : Time),
      ThrottleOffset.clockOffset t = Some provider ->
      (0 < ThrottleOffset.limit t)%N ->
      IsZero (ThrottleOffset.window t) = false ->
      Now sys w = (now, w1) ->
      let elapsed := Sub now (ThrottleOffset.window t) in
      let sleepDur := int64_sub ThrottleOffset.windowSize elapsed in
      let dur := int64_add sleepDur (provider sleepDur) in
      elapsed <= ThrottleOffset.windowSize ->
      (ThrottleOffset.limit t < uint64_add (ThrottleOffset.counter t) 1)%N ->
      Now sys (Sleep sys dur w1) = (now', w2) ->
      ThrottleOffset.advance sys t w =
        mkRun (Returns (ThrottleOffset.reset t now')) w2
              [CallNow now; CallSleep dur; CallNow now'] /\
      ThrottleOffset.window (ThrottleOffset.reset t now') = now' /\
      ThrottleOffset.counter (ThrottleOffset.reset t now') = 1%N).
Proof.
  split.
  - intros t c w w1 w2 now now' Hmu Hc Hpos Hopen Hnow elapsed sleepDur
           Hin Hfull Hwake.
    repeat split.
    + rewrite (Acquire_limited t c w Hmu Hc) by lia.
      rewrite Hnow, Hopen. cbv zeta. fold elapsed.
      destruct (Z.ltb_spec windowSize elapsed); [lia|].
      destruct (N.leb_spec (uint64_add (counter t) 1) (limit t)); [lia|].
      fold sleepDur. rewrite Hwake. reflexivity.
    + intros Hback. apply wrap_int64_exact.
      pose proof (Sub_bounds now (window t)) as Hb. fold elapsed in Hb.
      unfold windowSize, Second, maxDuration, minDuration in *. lia.
  - intros sys t provider w w1 w2 now now' Hoff Hpos Hopen Hnow
           elapsed sleepDur dur Hin Hfull Hwake.
    repeat split.
    rewrite Offset_advance_limited by lia.
    rewrite Hnow, Hopen, Hoff. cbv zeta. fold elapsed.
    destruct (Z.ltb_spec ThrottleOffset.windowSize elapsed); [lia|].
    destruct (N.leb_spec (uint64_add (ThrottleOffset.counter t) 1)
                         (ThrottleOffset.limit t)); [lia|].
    fold sleepDur. fold dur. rewrite Hwake. reflexivity.
Qed.

(** C9.  The clock-offset revision: [buildOptions] without setters leaves
    [clockOffset] nil, and for a throttler that carries the clock offset
    [New] gives it without options, limit positive, a call of [Do] that
    finds the window unexpired and saturated panics on the nil
    [clockOffset].  It has read the clock once, has not slept, and the
    callback is not run. *)
Theorem Do_without_offset_panics
        (W : Type) (sys : Clock W) (T Err : Type)
        (limit : N) (t : ThrottleOffset.Throttler)
        (fn : ThrottleOffset.Fn T Err) (w w1 : W) (now : Time) :
  (0 < limit)%N ->
  ThrottleOffset.limit t = limit ->
  ThrottleOffset.clockOffset t =
    ThrottleOffset.clockOffset (ThrottleOffset.New limit []) ->
  sync.locked (ThrottleOffset.mu t) = false ->
  Now sys w = (now, w1) ->
  let t1 := if IsZero (ThrottleOffset.window t)
            then ThrottleOffset.set_window t now else t in
  Sub now (ThrottleOffset.window t1) <= ThrottleOffset.windowSize ->
  (limit < uint64_add (ThrottleOffset.counter t) 1)%N ->
  ThrottleOffset.opt_clockOffset (ThrottleOffset.buildOptions []) = None /\
  ThrottleOffset.Do sys T Err t fn w = mkRun Panics w1 [CallNow now].
Proof.
  intros Hpos Hl Hoff Hmu Hnow t1 Hin Hfull.
  split; [reflexivity|].
  rewrite Offset_New_default in Hoff.
  assert (Hadv : ThrottleOffset.advance sys
                   (ThrottleOffset.set_mu t {| sync.locked := true |}) w =
                 mkRun Panics w1 [CallNow now]).
  { rewrite Offset_advance_limited by (simpl; lia).
    rewrite Hnow. simpl. rewrite Hoff. fold t1 in Hin |- *.
    subst t1. destruct (IsZero (ThrottleOffset.window t)); simpl in *;
      (destruct (ThrottleOffset.windowSize <? Sub now _) eqn:Hexp;
       [apply Z.ltb_lt in Hexp; lia|]);
      (destruct (N.leb_spec (uint64_add (ThrottleOffset.counter t) 1)
                            (ThrottleOffset.limit t)); [lia|]);
      reflexivity. }
  unfold ThrottleOffset.Do.
  erewrite bind_Returns
    by (unfold sync.Lock; rewrite Hmu; reflexivity).
  rewrite (bind_Panics _ _ _ _ _ Hadv). reflexivity.
Qed.

(** ** The data-model invariant *)

(** C6, as amended.  Right after construction the invariant holds at every
    instant.  After every [Acquire] of a throttler with a positive limit it
    holds at the last instant that call read from the clock, and the bound on
    the counter holds whatever the instant. *)
Theorem window_invariant_after_each_operation (W : Type) (sys : Clock W) :
  (forall (limit : N) (setters : list (Option W)) (now : Time),
      Caller.window_invariant (New sys limit setters) now)
  /\
  (forall (t : Throttler W) (c : Clock W) (w : W),
      sync.locked (mu t) = false ->
      clock t = Some c ->
      (0 < limit t)%N ->
      exists (t' : Throttler W) (now' : Time),
        res (Acquire t w) = Returns t' /\
        Caller.last_reading (calls (Acquire t w)) = Some now' /\
        Caller.window_invariant t' now' /\
        (IsZero (window t') = true \/ (counter t' <= limit t')%N)).
Proof.
  split.
  - intros limit setters now _. left. reflexivity.
  - intros t c w Hmu Hc Hpos.
    rewrite (Acquire_limited t c w Hmu Hc) by lia.
    destruct (Now c w) as [now w1]. cbv zeta.
    set (t1 := if IsZero (window t) then set_window t now else t).
    assert (Hl1 : limit t1 = limit t)
      by (subst t1; destruct (IsZero (window t)); reflexivity).
    destruct (Z.ltb_spec windowSize (Sub now (window t1))) as [Hexp|Hin].
    + exists (reset t1 now), now.
      split; [reflexivity|]. split; [reflexivity|]. simpl. split.
      * intros _. right. simpl. rewrite Sub_self, Hl1.
        unfold windowSize, Second. split; lia.
      * right. lia.
    + destruct (N.leb_spec (uint64_add (counter t) 1) (limit t))
        as [Hroom|Hfull].
      * exists (set_counter t1 (uint64_add (counter t) 1)), now.
        split; [reflexivity|]. split; [reflexivity|]. simpl. split.
        -- intros _. right. simpl. rewrite Hl1. split; assumption.
        -- right. lia.
      * destruct (Now c (Sleep c _ w1)) as [now' w2].
        exists (reset t1 now'), now'.
        split; [reflexivity|]. split; [reflexivity|]. simpl. split.
        -- intros _. right. simpl. rewrite Sub_self, Hl1.
           unfold windowSize, Second. split; lia.
        -- right. lia.
Qed.

(** ** The wrappers *)

(** C7.  [Do] of the generic revision performs the admission, which returns,
    then runs [fn] in the world the admission left; what [Do] yields is what
    [fn] yields, result and error as they are, paired here with the updated
    throttler.  [RoundTrip] does the same with [Acquire] and the wrapped
    transport.  Neither has an outcome of its own: where the wrapped
    operation returns they return, where it does not they do not. *)
Theorem wrappers_return_the_operation_result (W : Type) :
  (forall (sys : Clock W) (T Err : Type) (t : ThrottleGeneric.Throttler)
          (fn : ThrottleGeneric.Fn T Err) (w : W),
      sync.locked (ThrottleGeneric.mu t) = false ->
      exists t',
        let a := ThrottleGeneric.advance sys
                   (ThrottleGeneric.set_mu t {| sync.locked := true |}) w in
        let f := fn (world a) in
        res a = Returns t' /\
        ThrottleGeneric.Do sys T Err t fn w =
          mkRun (outcome_map
                   (fun r => (ThrottleGeneric.set_mu t' sync.unlocked, r))
                   (res f))
                (world f) (calls a ++ calls f))
  /\
  (forall (Request Response Err : Type)
          (t : throttledRoundTripper Request Response Err) (c : Clock W)
          (request : Request) (w : W),
      sync.locked (mu (throttler _ _ _ t)) = false ->
      clock (throttler _ _ _ t) = Some c ->
      exists th,
        let a := Acquire (throttler _ _ _ t) w in
        let f := transport _ _ _ t request (world a) in
        res a = Returns th /\
        RoundTrip _ _ _ t request w =
          mkRun (outcome_map (fun r => (set_throttler _ _ _ t th, r)) (res f))
                (world f) (calls a ++ calls f)).
Proof.
  split.
  - intros sys T Err t fn w Hmu.
    destruct (Generic_advance_returns sys
                (ThrottleGeneric.set_mu t {| sync.locked := true |}) w)
      as (t' & Ha & Hmu').
    exists t'. cbv zeta. split; [assumption|].
    unfold ThrottleGeneric.Do.
    erewrite bind_Returns
      by (unfold sync.Lock; rewrite Hmu; reflexivity).
    rewrite (bind_res_Returns _ _ _ _ Ha). cbv zeta.
    simpl in Hmu'. unfold bind, sync.Unlock. rewrite Hmu'. simpl.
    destruct (fn _) as [[r| |] wf cf]; simpl;
      rewrite ?app_nil_r; reflexivity.
  - intros Request Response Err t c request w Hmu Hc.
    destruct (Acquire_returns (throttler _ _ _ t) c w Hmu Hc)
      as (th & Ha & _).
    exists th. cbv zeta. split; [assumption|].
    unfold RoundTrip.
    rewrite (bind_res_Returns _ _ _ _ Ha). cbv zeta.
    unfold bind.
    destruct (transport _ _ _ t request _) as [[r| |] wf cf]; simpl;
      rewrite ?app_nil_r; reflexivity.
Qed.

(** ** A substitute clock *)

Section SubstituteClock.

Context {S E : Type}.

Variable sub_Now : S -> Time * S.
Variable sub_Sleep : Duration -> S -> S.

(** One [Acquire] on a substitute clock: its outcome, its clock calls and
    the clock state it leaves are the same whatever the rest of the world,
    which it leaves alone. *)
Lemma Acquire_confined (t : Throttler (S * E)) (s : S) :
  clock t = Some (Caller.substitute sub_Now sub_Sleep) ->
  exists o s' cs,
    (forall e, Acquire t (s, e) = mkRun o (s', e) cs) /\
    (forall t', o = Returns t' ->
                clock t' = Some (Caller.substitute sub_Now sub_Sleep)).
Proof.
  set (sub := Caller.substitute sub_Now sub_Sleep).
  intros Hc. destruct (sync.locked (mu t)) eqn:Hmu.
  - exists Blocks, s, []. split; [|discriminate].
    intros e. unfold Acquire. apply bind_Blocks.
    unfold sync.Lock. rewrite Hmu. reflexivity.
  - destruct (N.eq_dec (limit t) 0) as [Hl|Hl].
    + exists (Returns t), s, []. split.
      * intros e. apply Acquire_pass_through; assumption.
      * intros t' [= <-]. assumption.
    + assert (Hnow : forall s0 e,
                 Now sub (s0, e) =
                 (fst (sub_Now s0), (snd (sub_Now s0), e))).
      { intros s0 e. simpl. destruct (sub_Now s0). reflexivity. }
      destruct (sub_Now s) as [now s1] eqn:E1.
      assert (Hc1 : clock (if IsZero (window t)
                           then set_window t now else t) = Some sub)
        by (destruct (IsZero (window t)); assumption).
      destruct (windowSize <?
                Sub now (window (if IsZero (window t)
                                 then set_window t now else t)))
               eqn:Hexp.
      { eexists (Returns _), s1, [CallNow now]. split.
        - intros e. rewrite (Acquire_limited t sub (s, e) Hmu Hc Hl).
          rewrite Hnow, E1. simpl fst. simpl snd. cbv zeta.
          rewrite Hexp. reflexivity.
        - intros t' [= <-]. exact Hc1. }
      destruct (uint64_add (counter t) 1 <=? limit t)%N eqn:Hroom.
      { eexists (Returns _), s1, [CallNow now]. split.
        - intros e. rewrite (Acquire_limited t sub (s, e) Hmu Hc Hl).
          rewrite Hnow, E1. simpl fst. simpl snd. cbv zeta.
          rewrite Hexp, Hroom. reflexivity.
        - intros t' [= <-]. exact Hc1. }
      eexists (Returns _), _, _. split.
      * intros e. rewrite (Acquire_limited t sub (s, e) Hmu Hc Hl).
        rewrite Hnow, E1. simpl fst. simpl snd. cbv zeta.
        rewrite Hexp, Hroom.
        change (Sleep sub ?d (s1, e)) with (sub_Sleep d s1, e).
        rewrite Hnow. simpl fst. simpl snd. reflexivity.
      * intros t' [= <-]. exact Hc1.
Qed.

Lemma run_steps_confined (steps : list (Caller.Step (S := S)))
      (t : Throttler (S * E)) (s : S) :
  clock t = Some (Caller.substitute sub_Now sub_Sleep) ->
  exists out tf sf,
    forall e, Caller.run_steps steps t (s, e) = (out, tf, (sf, e)).
Proof.
  revert t s. induction steps as [|step rest IH]; intros t s Hc.
  - exists [], t, s. reflexivity.
  - destruct step as [|f].
    + destruct (Acquire_confined t s Hc) as (o & s' & cs & Hrun & Hclk).
      destruct o as [t'| |].
      * destruct (IH t' s' (Hclk t' eq_refl)) as (out & tf & sf & Hrest).
        exists (Caller.admission_of cs :: out), tf, sf.
        intros e. simpl. rewrite Hrun. simpl. rewrite Hrest. reflexivity.
      * exists [], t, s'. intros e. simpl. rewrite Hrun. reflexivity.
      * exists [], t, s'. intros e. simpl. rewrite Hrun. reflexivity.
    + destruct (IH t (f s) Hc) as (out & tf & sf & Hrest).
      exists out, tf, sf. intros e. simpl. apply Hrest.
Qed.

End SubstituteClock.

(** C8.  A throttler whose clock is a substitute with a state of its own:
    two runs of the same steps (admissions and operations on the clock) from
    the same clock state yield the same admissions, immediate or waited and
    for how long, the same throttler and the same clock state, whatever else
    differs between the two runs. *)
Theorem substitute_clock_deterministic
        (S E : Type) (sub_Now : S -> Time * S)
        (sub_Sleep : Duration -> S -> S)
        (steps : list (Caller.Step (S := S)))
        (t : Throttler (S * E)) (s : S) (e1 e2 : E) :
  clock t = Some (Caller.substitute sub_Now sub_Sleep) ->
  let run1 := Caller.run_steps steps t (s, e1) in
  let run2 := Caller.run_steps steps t (s, e2) in
  fst (fst run1) = fst (fst run2) /\
  snd (fst run1) = snd (fst run2) /\
  fst (snd run1) = fst (snd run2).
Proof.
  intros Hc.
  destruct (run_steps_confined sub_Now sub_Sleep steps t s Hc)
    as (out & tf & sf & Hrun).
  cbv zeta. rewrite (Hrun e1), (Hrun e2). simpl. auto.
Qed.

(** ** The package's own test, and the claims at concrete inputs *)

(** [TestWithClock]: with limit 1 the first [Acquire] does not sleep, the
    second sleeps once, for one second. *)
Example TestWithClock :
  let t0 := Examples.mock_throttler 1 in
  let r1 := Acquire t0 (Mock.at_time Examples.T0) in
  exists t1,
    res r1 = Returns t1 /\
    Mock.sleepCalls (world r1) = [] /\
    Mock.sleepCalls (world (Acquire t1 (world r1))) = [Second].
Proof. eexists. repeat split. Qed.

(** A window opened at [T0] with one of five admissions used, half a second
    in. *)
Lemma Acquire_admits_within_window_witness :
  let t := Examples.open_window 5 1 Examples.T0 in
  let w := Mock.at_time (Examples.T0 + 500 * Millisecond) in
  (IsZero (window t) = false /\ (counter t + 1 <= limit t)%N) /\
  Acquire t w =
    mkRun (Returns (Examples.open_window 5 2 Examples.T0)) w
          [CallNow (Examples.T0 + 500 * Millisecond)].
Proof.
  cbv zeta. split; [split; [reflexivity | vm_compute; discriminate]|].
  apply (Acquire_admits_within_window _
           (Examples.open_window 5 1 Examples.T0) Mock.clock
           (Mock.at_time (Examples.T0 + 500 * Millisecond))
           (Mock.at_time (Examples.T0 + 500 * Millisecond))
           (Examples.T0 + 500 * Millisecond));
    try reflexivity; vm_compute; discriminate.
Defined.

(** A window of limit 2 opened at [T0].  A call exactly one second in is
    admitted into that window when one admission is used; when both are
    used it sleeps for 0 and opens the window at [T0 + 1s] with counter 1.
    A call one nanosecond later opens the window at that instant with
    counter 1 and does not sleep. *)
Lemma window_boundary_policy_witness :
  (let t := Examples.open_window 2 1 Examples.T0 in
   let w := Mock.at_time (Examples.T0 + Second) in
   (IsZero (window t) = false /\
    Sub (Examples.T0 + Second) (window t) = windowSize) /\
   Acquire t w =
     mkRun (Returns (Examples.open_window 2 2 Examples.T0)) w
           [CallNow (Examples.T0 + Second)])
  /\
  (let t := Examples.open_window 2 2 Examples.T0 in
   let w := Mock.at_time (Examples.T0 + Second) in
   (Sub (Examples.T0 + Second) (window t) = windowSize /\
    (limit t < uint64_add (counter t) 1)%N) /\
   Acquire t w =
     mkRun (Returns (Examples.open_window 2 1 (Examples.T0 + Second)))
           (Examples.mock_at (Examples.T0 + Second) [0])
           [CallNow (Examples.T0 + Second); CallSleep 0;
            CallNow (Examples.T0 + Second)])
  /\
  (let t := Examples.open_window 2 2 Examples.T0 in
   let w := Mock.at_time (Examples.T0 + Second + 1) in
   windowSize < Sub (Examples.T0 + Second + 1) (window t) /\
   Acquire t w =
     mkRun (Returns (Examples.open_window 2 1 (Examples.T0 + Second + 1)))
           w [CallNow (Examples.T0 + Second + 1)]).
Proof.
  cbv zeta. split; [|split].
  - split; [split; reflexivity|].
    apply (window_boundary_policy _
             (Examples.open_window 2 1 Examples.T0) Mock.clock
             (Mock.at_time (Examples.T0 + Second))
             (Mock.at_time (Examples.T0 + Second))
             (Examples.T0 + Second)
             eq_refl eq_refl eq_refl eq_refl eq_refl);
      [reflexivity | vm_compute; discriminate].
  - split; [split; reflexivity|].
    apply (window_boundary_policy _
             (Examples.open_window 2 2 Examples.T0) Mock.clock
             (Mock.at_time (Examples.T0 + Second))
             (Mock.at_time (Examples.T0 + Second))
             (Examples.T0 + Second)
             eq_refl eq_refl eq_refl eq_refl eq_refl);
      reflexivity.
  - split; [reflexivity|].
    apply (window_boundary_policy _
             (Examples.open_window 2 2 Examples.T0) Mock.clock
             (Mock.at_time (Examples.T0 + Second + 1))
             (Mock.at_time (Examples.T0 + Second + 1))
             (Examples.T0 + Second + 1)
             eq_refl eq_refl eq_refl eq_refl eq_refl);
      reflexivity.
Defined.

(** The [uint64] sum [counter + 1] is the integer sum except at the largest
    [uint64], where it wraps to 0: a throttler with that limit and that many
    admissions in its window admits the next call and counts from 0. *)
Example nextCount_wraps_at_uint64_max :
  uint64_add uint64_max 1 = 0%N /\
  Acquire (Examples.open_window uint64_max uint64_max Examples.T0)
          (Mock.at_time Examples.T0) =
    mkRun (Returns (Examples.open_window uint64_max 0 Examples.T0))
          (Mock.at_time Examples.T0) [CallNow Examples.T0].
Proof. split; reflexivity. Qed.

(** A full window a quarter of a second in: the current revision sleeps the
    remaining 750ms; the clock-offset revision, with a static offset of
    100ms, sleeps 850ms. *)
Lemma saturated_window_waits_witness :
  (let t := Examples.open_window 1 1 Examples.T0 in
   let w := Mock.at_time (Examples.T0 + 250 * Millisecond) in
   (limit t < uint64_add (counter t) 1)%N /\
   res (Acquire t w) =
     Returns (Examples.open_window 1 1 (Examples.T0 + Second)) /\
   calls (Acquire t w) =
     [CallNow (Examples.T0 + 250 * Millisecond);
      CallSleep (750 * Millisecond);
      CallNow (Examples.T0 + Second)])
  /\
  (let t := Examples.offset_window (Some (fun _ => 100 * Millisecond))
                                   1 1 Examples.T0 in
   let w := Mock.at_time (Examples.T0 + 250 * Millisecond) in
   calls (ThrottleOffset.advance Mock.clock t w) =
     [CallNow (Examples.T0 + 250 * Millisecond);
      CallSleep (850 * Millisecond);
      CallNow (Examples.T0 + 1100 * Millisecond)]).
Proof.
  cbv zeta. split; [split; [reflexivity|]|].
  - pose proof (proj1 (saturated_window_waits Mock.mockClock)
           (Examples.open_window 1 1 Examples.T0) Mock.clock
           (Mock.at_time (Examples.T0 + 250 * Millisecond))
           (Mock.at_time (Examples.T0 + 250 * Millisecond))
           (Mock.mock_Sleep (750 * Millisecond)
              (Mock.at_time (Examples.T0 + 250 * Millisecond)))
           (Examples.T0 + 250 * Millisecond)
           (Examples.T0 + Second)
           eq_refl eq_refl eq_refl eq_refl eq_refl) as H.
    cbv zeta in H.
    destruct H as (H & _); [vm_compute; discriminate | reflexivity
                           | reflexivity |].
    rewrite H. split; reflexivity.
  - pose proof (proj2 (saturated_window_waits Mock.mockClock)
           Mock.clock
           (Examples.offset_window (Some (fun _ => 100 * Millisecond))
                                   1 1 Examples.T0)
           (fun _ => 100 * Millisecond)
           (Mock.at_time (Examples.T0 + 250 * Millisecond))
           (Mock.at_time (Examples.T0 + 250 * Millisecond))
           (Mock.mock_Sleep (850 * Millisecond)
              (Mock.at_time (Examples.T0 + 250 * Millisecond)))
           (Examples.T0 + 250 * Millisecond)
           (Examples.T0 + 1100 * Millisecond)
           eq_refl eq_refl eq_refl eq_refl) as H.
    cbv zeta in H.
    destruct H as (H & _); [vm_compute; discriminate | reflexivity
                           | reflexivity |].
    rewrite H. reflexivity.
Defined.

(** The clock-offset revision built without options, limit 1, second call
    within the window. *)
Lemma Do_without_offset_panics_witness :
  let t := Examples.offset_window None 1 1 Examples.T0 in
  let w := Mock.at_time (Examples.T0 + 250 * Millisecond) in
  (ThrottleOffset.clockOffset t =
     ThrottleOffset.clockOffset (ThrottleOffset.New 1 []) /\
   (1 < uint64_add (ThrottleOffset.counter t) 1)%N) /\
  ThrottleOffset.Do Mock.clock Z (option nat) t Examples.fn_ok w =
    mkRun Panics w [CallNow (Examples.T0 + 250 * Millisecond)].
Proof.
  cbv zeta. split; [split; reflexivity|].
  apply (proj2 (A := ThrottleOffset.opt_clockOffset
                       (ThrottleOffset.buildOptions []) = None)).
  apply (Do_without_offset_panics Mock.mockClock Mock.clock Z (option nat) 1
           (Examples.offset_window None 1 1 Examples.T0) Examples.fn_ok
           (Mock.at_time (Examples.T0 + 250 * Millisecond))
           (Mock.at_time (Examples.T0 + 250 * Millisecond))
           (Examples.T0 + 250 * Millisecond));
    try reflexivity; vm_compute; discriminate.
Defined.

(** C6, the claim as stated fails.  [New(1, WithClock(mock))], one
    [Acquire] at [T0], then two seconds pass on the mock without a call: the
    limit is positive, the window is set, and [now - window] is two seconds,
    more than [windowSize]. *)
Lemma window_invariant_lapses_between_calls :
  let r := Acquire (Examples.mock_throttler 1) (Mock.at_time Examples.T0) in
  exists t1,
    res r = Returns t1 /\
    let later := Mock.mock_Sleep (2 * Second) (world r) in
    ~ Caller.window_invariant t1 (fst (Mock.mock_Now later)).
Proof.
  eexists. split; [reflexivity|].
  cbv zeta. unfold Caller.window_invariant. intros H.
  destruct (H eq_refl) as [Hunset | [_ Hage]].
  - vm_compute in Hunset. discriminate.
  - vm_compute in Hage. apply Hage. reflexivity.
Qed.

(** The first [Acquire] of a throttler with limit 1 on the mock. *)
Lemma window_invariant_after_each_operation_witness :
  let t := Examples.mock_throttler 1 in
  let w := Mock.at_time Examples.T0 in
  (sync.locked (mu t) = false /\ clock t = Some Mock.clock /\
   (0 < limit t)%N) /\
  exists (t' : Throttler Mock.mockClock) (now' : Time),
    res (Acquire t w) = Returns t' /\
    Caller.last_reading (calls (Acquire t w)) = Some now' /\
    Caller.window_invariant t' now' /\
    (IsZero (window t') = true \/ (counter t' <= limit t')%N).
Proof.
  cbv zeta. split; [repeat split|].
  apply (proj2 (window_invariant_after_each_operation
                  Mock.mockClock Mock.clock)
               (Examples.mock_throttler 1) Mock.clock
               (Mock.at_time Examples.T0));
    reflexivity.
Defined.

(** A callback that fails with error 7 and a transport that answers the
    request with error 3: both come back as they are. *)
Lemma wrappers_return_the_operation_result_witness :
  (let t := ThrottleGeneric.New 1 in
   sync.locked (ThrottleGeneric.mu t) = false /\
   exists t',
     res (ThrottleGeneric.Do Mock.clock Z (option nat) t Examples.fn_failing
            (Mock.at_time Examples.T0)) = Returns (t', (0, Some 7%nat)))
  /\
  (let t := NewRoundTripper Mock.clock Z Z (option nat) Examples.echo 2
              [WithClock (Some Mock.clock)] in
   exists t',
     res (RoundTrip Z Z (option nat) t 11 (Mock.at_time Examples.T0)) =
       Returns (t', (11, Some 3%nat))).
Proof.
  cbv zeta. split; [split; [reflexivity|]|].
  - destruct (proj1 (wrappers_return_the_operation_result Mock.mockClock)
                Mock.clock Z (option nat) (ThrottleGeneric.New 1)
                Examples.fn_failing (Mock.at_time Examples.T0) eq_refl)
      as (t' & _ & H).
    rewrite H. eexists. reflexivity.
  - destruct (proj2 (wrappers_return_the_operation_result Mock.mockClock)
                Z Z (option nat)
                (NewRoundTripper Mock.clock Z Z (option nat) Examples.echo 2
                   [WithClock (Some Mock.clock)])
                Mock.clock 11 (Mock.at_time Examples.T0) eq_refl eq_refl)
      as (th & _ & H).
    rewrite H. eexists. reflexivity.
Defined.

(** Limit 1 on the mock, two runs that differ in the real time around
    them. *)
Lemma substitute_clock_deterministic_witness :
  let t := Examples.confined_throttler 1 in
  let steps := [Caller.StepAcquire; Caller.StepAcquire;
                Caller.StepClock (Mock.mock_Sleep (3 * Second));
                Caller.StepAcquire; Caller.StepAcquire] in
  let run1 := Caller.run_steps steps t (Mock.at_time Examples.T0, 0) in
  let run2 := Caller.run_steps steps t
                (Mock.at_time Examples.T0, 5 * Second) in
  fst (fst run1) =
    [Caller.AdmittedImmediately; Caller.Waited Second;
     Caller.AdmittedImmediately; Caller.Waited Second] /\
  fst (fst run1) = fst (fst run2) /\
  snd (fst run1) = snd (fst run2) /\
  fst (snd run1) = fst (snd run2).
Proof.
  cbv zeta. split; [reflexivity|].
  apply (substitute_clock_deterministic Mock.mockClock Time
           Mock.mock_Now Mock.mock_Sleep _
           (Examples.confined_throttler 1) (Mock.at_time Examples.T0)
           0 (5 * Second)).
  reflexivity.
Defined.

(** ** A burst on the test double

    The calls of a burst go through the mutex one at a time, so on the test
    double, where time moves only when [Sleep] is called, a burst of [n]
    calls is [n] calls in a row.  Call number [i], counted from 0, completes
    [i / limit] seconds after the burst began. *)

Section BurstOnMock.

Variable L : N.
Hypothesis L_pos : (0 < L)%N.
Hypothesis L_uint64 : (L < uint64_max)%N.

Lemma burst_step_room (win : Time) (c : N) (sl : list Duration) :
  (c + 1 <= L)%N ->
  Acquire (Examples.open_window L c win) (Examples.mock_at win sl) =
    mkRun (Returns (Examples.open_window L (c + 1) win))
          (Examples.mock_at win sl) [CallNow win].
Proof.
  intros Hroom.
  rewrite (Acquire_limited (Examples.open_window L c win) Mock.clock
             (Examples.mock_at win sl) eq_refl eq_refl) by (simpl; lia).
  cbn [Now Mock.clock Mock.mock_Now Examples.mock_at Mock.currentTime].
  assert (Hw : window (if IsZero (window (Examples.open_window L c win))
                       then set_window (Examples.open_window L c win) win
                       else Examples.open_window L c win) = win)
    by (simpl; destruct (IsZero win); reflexivity).
  cbv zeta. rewrite Hw, Sub_self.
  cbn [Examples.open_window counter limit].
  rewrite uint64_add_exact by (unfold uint64_max in *; lia).
  change (windowSize <? 0) with false. cbv iota.
  destruct (N.leb_spec (c + 1) L); [|lia].
  simpl. destruct (IsZero win); reflexivity.
Qed.

Lemma burst_step_full (win : Time) (sl : list Duration) :
  Acquire (Examples.open_window L L win) (Examples.mock_at win sl) =
    mkRun (Returns (Examples.open_window L 1 (win + Second)))
          (Examples.mock_at (win + Second) (sl ++ [Second]))
          [CallNow win; CallSleep Second; CallNow (win + Second)].
Proof.
  rewrite (Acquire_limited (Examples.open_window L L win) Mock.clock
             (Examples.mock_at win sl) eq_refl eq_refl) by (simpl; lia).
  cbn [Now Mock.clock Mock.mock_Now Examples.mock_at Mock.currentTime].
  assert (Hw : window (if IsZero (window (Examples.open_window L L win))
                       then set_window (Examples.open_window L L win) win
                       else Examples.open_window L L win) = win)
    by (simpl; destruct (IsZero win); reflexivity).
  cbv zeta. rewrite Hw, Sub_self.
  cbn [Examples.open_window counter limit].
  change (windowSize <? 0) with false. cbv iota.
  change (int64_sub windowSize 0) with Second.
  destruct (N.leb_spec (uint64_add L 1) L) as [Hle|_].
  - exfalso. rewrite uint64_add_exact in Hle; unfold uint64_max in *; lia.
  - simpl. destruct (IsZero win); reflexivity.
Qed.

Lemma burst_completions_from (n : nat) :
  forall (win : Time) (c : N) (sl : list Duration),
    (c <= L)%N ->
    Burst.completions Mock.clock n (Examples.open_window L c win)
                      (Examples.mock_at win sl) =
      map (fun i => win + (Z.of_N c + Z.of_nat i) / Z.of_N L * Second)
          (seq 0 n).
Proof.
  induction n as [|n IH]; intros win c sl Hc; [reflexivity|].
  rewrite <- cons_seq, <- seq_shift, map_cons, map_map.
  cbn [Burst.completions].
  destruct (N.eq_dec c L) as [->|Hne].
  - rewrite burst_step_full. cbn [res world Now Mock.clock Mock.mock_Now].
    cbn [fst snd Examples.mock_at Mock.currentTime].
    change {| Mock.currentTime := win + Second;
              Mock.sleepCalls := sl ++ [Second] |}
      with (Examples.mock_at (win + Second) (sl ++ [Second])).
    rewrite IH by lia. f_equal.
    + change (Z.of_nat 0) with 0.
      rewrite Z.add_0_r, Z.div_same by lia.
      rewrite Z.mul_1_l. reflexivity.
    + apply map_ext. intros i.
      replace (Z.of_N L + Z.of_nat (S i))
        with (Z.of_N 1 + Z.of_nat i + 1 * Z.of_N L) by lia.
      rewrite Z.div_add by lia. unfold Time. lia.
  - rewrite burst_step_room by lia.
    cbn [res world Now Mock.clock Mock.mock_Now].
    cbn [fst snd Examples.mock_at Mock.currentTime].
    change {| Mock.currentTime := win; Mock.sleepCalls := sl |}
      with (Examples.mock_at win sl).
    rewrite IH by lia. f_equal.
    + change (Z.of_nat 0) with 0.
      rewrite Z.add_0_r, Z.div_small by lia.
      rewrite Z.mul_0_l, Z.add_0_r. reflexivity.
    + apply map_ext. intros i.
      replace (Z.of_N (c + 1) + Z.of_nat i)
        with (Z.of_N c + Z.of_nat (S i)) by lia.
      reflexivity.
Qed.

Lemma burst_first (T : Time) (sl : list Duration) :
  Acquire (Examples.mock_throttler L) (Examples.mock_at T sl) =
    mkRun (Returns (Examples.open_window L 1 T)) (Examples.mock_at T sl)
          [CallNow T].
Proof.
  rewrite (Acquire_limited (Examples.mock_throttler L) Mock.clock
             (Examples.mock_at T sl) eq_refl eq_refl) by (simpl; lia).
  cbn [Now Mock.clock Mock.mock_Now Examples.mock_at Mock.currentTime].
  change (IsZero (window (Examples.mock_throttler L))) with true.
  cbv iota zeta.
  change (window (set_window (Examples.mock_throttler L) T)) with T.
  rewrite Sub_self.
  change (windowSize <? 0) with false. cbv iota.
  change (uint64_add (counter (Examples.mock_throttler L)) 1) with 1%N.
  change (limit (Examples.mock_throttler L)) with L.
  destruct (N.leb_spec 1 L); [reflexivity | lia].
Qed.

(** Call number [i] of a burst that begins at [T] completes at
    [T + (i / L) * Second]. *)
Lemma burst_completions (n : nat) (T : Time) :
  Burst.completions Mock.clock n (Examples.mock_throttler L)
                    (Mock.at_time T) =
    map (fun i => T + Z.of_nat i / Z.of_N L * Second) (seq 0 n).
Proof.
  destruct n as [|n]; [reflexivity|].
  rewrite <- cons_seq, <- seq_shift, map_cons, map_map.
  cbn [Burst.completions].
  change (Mock.at_time T) with (Examples.mock_at T []).
  rewrite burst_first.
  cbn [res world Now Mock.clock Mock.mock_Now].
  cbn [fst snd Examples.mock_at Mock.currentTime].
  change {| Mock.currentTime := T; Mock.sleepCalls := [] |}
    with (Examples.mock_at T []).
  rewrite burst_completions_from by lia. f_equal.
  - change (Z.of_nat 0) with 0.
    rewrite Z.div_0_l by lia. rewrite Z.mul_0_l, Z.add_0_r. reflexivity.
  - apply map_ext. intros i.
    replace (Z.of_N 1 + Z.of_nat i) with (Z.of_nat (S i)) by lia.
    reflexivity.
Qed.

End BurstOnMock.

(** Calls that are spaced out instead: with limit 2 and calls 0.5s, 1.4s,
    1.45s and 1.6s after [T0], the throttler's windows start at 0.5s and
    1.5s, and the second counted from [T0] that begins at 1s holds three
    completions. *)
Example spaced_calls_share_a_second :
  let cs := Burst.spaced_completions Mock.clock
              [500 * Millisecond; 900 * Millisecond;
               50 * Millisecond; 100 * Millisecond]
              (Examples.mock_throttler 2) (Mock.at_time Examples.T0) in
  cs = [Examples.T0 + 500 * Millisecond; Examples.T0 + 1400 * Millisecond;
        Examples.T0 + 1500 * Millisecond; Examples.T0 + 1600 * Millisecond]
  /\ Burst.completions_in Examples.T0 1 cs = 3%nat.
Proof. split; reflexivity. Qed.

(** Of the numbers below [n], at most [m] satisfy a test that holds only
    between [a] and [a + m]. *)
Lemma filter_seq_bounded (p : nat -> bool) (a m n : nat) :
  (forall i, p i = true -> (a <= i < a + m)%nat) ->
  (length (filter p (seq 0 n)) <= m)%nat.
Proof.
  intros Hp.
  assert (H : (length (filter p (seq 0 n)) <=
               Nat.min n (a + m) - Nat.min n a)%nat).
  { induction n as [|n IH]; [simpl; lia|].
    rewrite seq_S, filter_app, length_app.
    replace (length (filter p [(0 + n)%nat]))
      with (if p n then 1%nat else 0%nat)
      by (simpl; destruct (p n); reflexivity).
    destruct (p n) eqn:Hpn.
    - apply Hp in Hpn. lia.
    - lia. }
  lia.
Qed.

(** X1.  In a burst of [n] calls on the test double every call completes, and
    no one-second window, counted from the instant the burst began, holds more
    than [L] completions. *)
Lemma burst_on_mock_within_limit (L : N) (n : nat) (T : Time) :
  (0 < L)%N ->
  (L < uint64_max)%N ->
  let cs := Burst.completions Mock.clock n (Examples.mock_throttler L)
                              (Mock.at_time T) in
  length cs = n /\
  forall k : Z, (Burst.completions_in T k cs <= N.to_nat L)%nat.
Proof.
  intros Hpos Hmax. cbv zeta. rewrite burst_completions by assumption.
  split.
  - rewrite length_map, length_seq. reflexivity.
  - intros k. unfold Burst.completions_in.
    assert (Hidx : forall i,
               Burst.window_index T (T + Z.of_nat i / Z.of_N L * Second) =
               Z.of_nat i / Z.of_N L).
    { intros i. unfold Burst.window_index.
      replace (T + Z.of_nat i / Z.of_N L * Second - T)
        with (Z.of_nat i / Z.of_N L * Second) by (unfold Time; lia).
      apply Z.div_mul. discriminate. }
    assert (Hf : forall l,
               length (filter (fun ts => Burst.window_index T ts =? k)
                         (map (fun i => T + Z.of_nat i / Z.of_N L * Second)
                              l)) =
               length (filter (fun i => Z.of_nat i / Z.of_N L =? k) l)).
    { induction l as [|i l IHl]; [reflexivity|].
      simpl. rewrite Hidx.
      destruct (Z.of_nat i / Z.of_N L =? k); simpl; rewrite IHl;
        reflexivity. }
    rewrite Hf.
    apply (filter_seq_bounded _ (Z.to_nat (k * Z.of_N L))).
    intros i Hi. apply Z.eqb_eq in Hi.
    assert (HL : 0 < Z.of_N L) by lia.
    pose proof (Z.mul_div_le (Z.of_nat i) (Z.of_N L) HL) as Hlo.
    pose proof (Z.mul_succ_div_gt (Z.of_nat i) (Z.of_N L) HL) as Hhi.
    rewrite Hi in Hlo, Hhi.
    assert (0 <= k) by (subst k; apply Z.div_pos; lia).
    nia.
Qed.

(** * Further properties of the code *)

(** ** Options and construction *)

(** X2.  The clock of a throttler is the one of the last [WithClock] among the
    options; a nil clock there, or no option at all, gives the default clock. *)
Theorem New_clock_last_option_wins
        (W : Type) (sys : Clock W) (lim : N) (setters : list (Option W))
        (c : option (Clock W)) :
  clock (New sys lim (setters ++ [WithClock c])) =
    Some (match c with Some k => k | None => DefaultClock sys end) /\
  clock (New sys lim []) = Some (DefaultClock sys).
Proof.
  split; [|reflexivity].
  unfold New, buildOptions. cbn [clock].
  rewrite fold_left_app. cbn [fold_left WithClock opt_clock].
  destruct c; reflexivity.
Qed.

Section Readiness.

Context {W : Type}.

Lemma Acquire_times_ready (n : nat) :
  forall (t : Throttler W) (c : Clock W) (w : W),
    sync.locked (mu t) = false ->
    clock t = Some c ->
    exists t',
      res (Caller.Acquire_times n t w) = Returns t' /\
      sync.locked (mu t') = false /\ clock t' = Some c /\
      limit t' = limit t.
Proof.
  induction n as [|n IH]; intros t c w Hmu Hc.
  - exists t. simpl. auto.
  - destruct (Acquire_returns t c w Hmu Hc) as (t1 & Hr & Hmu1 & Hc1 & Hl1).
    cbn [Caller.Acquire_times].
    rewrite (bind_res_Returns _ _ _ _ Hr). cbv zeta. cbn [res].
    destruct (IH t1 c (world (Acquire t w)) Hmu1 Hc1)
      as (t' & Hr' & Hmu' & Hc' & Hl').
    exists t'. rewrite Hl', Hl1. auto.
Qed.

End Readiness.

(** X3.  Any number of [Acquire] calls in a row on a throttler that [New]
    built, whatever the options: every call returns, none panics on a nil
    clock or waits for the mutex, and the throttler that comes back has its
    mutex free, the limit it was built with and a clock. *)
Theorem Acquire_times_returns
        (W : Type) (sys : Clock W) (lim : N) (setters : list (Option W))
        (n : nat) (w : W) :
  exists t' c,
    res (Caller.Acquire_times n (New sys lim setters) w) = Returns t' /\
    sync.locked (mu t') = false /\
    limit t' = lim /\
    clock t' = Some c /\ clock (New sys lim setters) = Some c.
Proof.
  destruct (New_ready sys lim setters) as (Hmu & Hl & c & Hc).
  destruct (Acquire_times_ready n (New sys lim setters) c w Hmu Hc)
    as (t' & Hr & Hmu' & Hc' & Hl').
  exists t', c. rewrite Hl' , Hl. auto.
Qed.

(** ** The window *)

(** X4.  A throttler whose window is unset (the zero instant): the call
    anchors the window at the instant it reads, so the elapsed time is 0 and
    the window never counts as expired.  With room the window starts at that
    instant and the carried counter is incremented; with none the caller
    sleeps a whole [windowSize], and the window starts at what [Now] answers
    after the sleep, with counter 1. *)
Theorem Acquire_unset_window_anchors
        (W : Type) (t : Throttler W) (c : Clock W) (w w1 : W) (now : Time) :
  sync.locked (mu t) = false ->
  clock t = Some c ->
  (0 < limit t)%N ->
  IsZero (window t) = true ->
  Now c w = (now, w1) ->
  let nextCount := uint64_add (counter t) 1 in
  ((nextCount <= limit t)%N ->
   exists t',
     Acquire t w = mkRun (Returns t') w1 [CallNow now] /\
     window t' = now /\ counter t' = nextCount /\
     limit t' = limit t /\ clock t' = clock t /\ mu t' = mu t)
  /\
  ((limit t < nextCount)%N ->
   let now' := fst (Now c (Sleep c windowSize w1)) in
   exists t',
     Acquire t w =
       mkRun (Returns t') (snd (Now c (Sleep c windowSize w1)))
             [CallNow now; CallSleep windowSize; CallNow now'] /\
     window t' = now' /\ counter t' = 1%N /\
     limit t' = limit t /\ clock t' = clock t /\ mu t' = mu t).
Proof.
  intros Hmu Hc Hpos Hunset Hnow nextCount.
  assert (Heq := Acquire_limited t c w Hmu Hc).
  rewrite Hnow, Hunset in Heq. cbv zeta in Heq.
  cbn [window set_window] in Heq. rewrite Sub_self in Heq.
  change (windowSize <? 0) with false in Heq. cbv iota in Heq.
  change (int64_sub windowSize 0) with windowSize in Heq.
  fold nextCount in Heq. rewrite Heq by lia. clear Heq.
  apply mutex_unlocked in Hmu.
  split; intros H.
  - destruct (N.leb_spec nextCount (limit t)); [|lia].
    eexists. split; [reflexivity|].
    cbn [window counter limit clock mu set_counter set_window].
    rewrite Hmu. repeat (split; [reflexivity|]). reflexivity.
  - destruct (N.leb_spec nextCount (limit t)); [lia|].
    intros now'. subst now'.
    destruct (Now c (Sleep c windowSize w1)) as [now' w2].
    eexists. split; [reflexivity|].
    cbn [fst window counter limit clock mu reset set_counter set_window].
    rewrite Hmu. repeat (split; [reflexivity|]). reflexivity.
Qed.

(** The first call on a throttler with limit 3 anchors the window at [T0]
    and counts 1.  A throttler with limit 1 that admitted its one call at
    the zero instant, so that its window still reads as unset, sleeps a
    second and anchors the window after it. *)
Lemma Acquire_unset_window_anchors_witness :
  (let t := Examples.mock_throttler 3 in
   let w := Mock.at_time Examples.T0 in
   IsZero (window t) = true /\
   exists t',
     Acquire t w = mkRun (Returns t') w [CallNow Examples.T0] /\
     window t' = Examples.T0 /\ counter t' = 1%N)
  /\
  (let t := Examples.open_window 1 1 0 in
   let w := Mock.at_time Examples.T0 in
   (IsZero (window t) = true /\ (limit t < uint64_add (counter t) 1)%N) /\
   exists t',
     Acquire t w =
       mkRun (Returns t') (Examples.mock_at (Examples.T0 + Second) [Second])
             [CallNow Examples.T0; CallSleep Second;
              CallNow (Examples.T0 + Second)] /\
     window t' = Examples.T0 + Second /\ counter t' = 1%N).
Proof.
  cbv zeta. split.
  - split; [reflexivity|].
    assert (Hroom : (uint64_add 0 1 <= 3)%N) by (vm_compute; discriminate).
    destruct (proj1 (Acquire_unset_window_anchors _
                       (Examples.mock_throttler 3) Mock.clock
                       (Mock.at_time Examples.T0)
                       (Mock.at_time Examples.T0) Examples.T0
                       eq_refl eq_refl eq_refl eq_refl eq_refl) Hroom)
      as (t' & Hrun & Hwin & Hcnt & _).
    exists t'. split; [exact Hrun|]. split; [exact Hwin | exact Hcnt].
  - split; [split; reflexivity|].
    assert (Hfull : (1 < uint64_add 1 1)%N) by (vm_compute; reflexivity).
    destruct (proj2 (Acquire_unset_window_anchors _
                       (Examples.open_window 1 1 0) Mock.clock
                       (Mock.at_time Examples.T0)
                       (Mock.at_time Examples.T0) Examples.T0
                       eq_refl eq_refl eq_refl eq_refl eq_refl) Hfull)
      as (t' & Hrun & Hwin & Hcnt & _).
    exists t'. split; [exact Hrun|]. split; [exact Hwin | exact Hcnt].
Defined.

(** X5.  Windows do not overlap.  Open window, positive limit, a clock that
    has not run backwards ([window <= now]) and that wakes a sleeper no
    earlier than asked: [Acquire] returns, and either the call is counted in
    the window as it was (same start, counter [nextCount]), or it is the first
    of a window that starts at least [windowSize] after the old one (counter
    1). *)
Theorem Acquire_windows_do_not_overlap
        (W : Type) (t : Throttler W) (c : Clock W) (w w1 : W) (now : Time) :
  sync.locked (mu t) = false ->
  clock t = Some c ->
  (0 < limit t)%N ->
  IsZero (window t) = false ->
  Now c w = (now, w1) ->
  window t <= now ->
  (forall d, now + d <= fst (Now c (Sleep c d w1))) ->
  exists t',
    res (Acquire t w) = Returns t' /\
    ((window t' = window t /\ counter t' = uint64_add (counter t) 1 /\
      (counter t' <= limit t)%N) \/
     (window t + windowSize <= window t' /\ counter t' = 1%N)).
Proof.
  intros Hmu Hc Hpos Hopen Hnow Hmono Hwake.
  rewrite (Acquire_limited t c w Hmu Hc) by lia.
  rewrite Hnow, Hopen. cbv zeta.
  assert (Hsub : Sub now (window t) = now - window t \/
                 Sub now (window t) = maxDuration).
  { unfold Sub, minDuration, maxDuration.
    destruct (Z.ltb_spec (now - window t) (- 2 ^ 63)); [lia|].
    destruct (Z.ltb_spec (2 ^ 63 - 1) (now - window t)); auto. }
  assert (Hclamp : Sub now (window t) <= now - window t).
  { unfold Sub, minDuration, maxDuration.
    destruct (Z.ltb_spec (now - window t) (- 2 ^ 63)); [lia|].
    destruct (Z.ltb_spec (2 ^ 63 - 1) (now - window t)); lia. }
  destruct (Z.ltb_spec windowSize (Sub now (window t))) as [Hexp|Hin].
  - eexists. split; [reflexivity|]. right.
    cbn [window counter reset set_window set_counter].
    split; [lia | reflexivity].
  - destruct (N.leb_spec (uint64_add (counter t) 1) (limit t)).
    + eexists. split; [reflexivity|]. left.
      cbn [window counter set_counter]. auto.
    + assert (Hexact : Sub now (window t) = now - window t).
      { destruct Hsub as [|Hmax]; [assumption|].
        rewrite Hmax in Hin.
        unfold windowSize, Second, maxDuration in Hin. lia. }
      pose proof (Hwake (int64_sub windowSize (Sub now (window t)))) as Hw.
      destruct (Now c (Sleep c _ w1)) as [now' w2].
      eexists. split; [reflexivity|]. right.
      cbn [window counter reset set_window set_counter fst] in *.
      split; [|reflexivity].
      unfold int64_sub in Hw. rewrite wrap_int64_exact in Hw.
      * lia.
      * rewrite Hexact in *.
        unfold windowSize, Second, minDuration, maxDuration in *. lia.
Qed.

(** A full window a quarter of a second in, on the mock: the call comes back
    in the window that starts at [T0 + 1s], with counter 1. *)
Lemma Acquire_windows_do_not_overlap_witness :
  let t := Examples.open_window 1 1 Examples.T0 in
  let w := Mock.at_time (Examples.T0 + 250 * Millisecond) in
  (window t <= Examples.T0 + 250 * Millisecond) /\
  res (Acquire t w) =
    Returns (Examples.open_window 1 1 (Examples.T0 + Second)) /\
  exists t',
    res (Acquire t w) = Returns t' /\
    ((window t' = window t /\ counter t' = uint64_add (counter t) 1 /\
      (counter t' <= limit t)%N) \/
     (window t + windowSize <= window t' /\ counter t' = 1%N)).
Proof.
  cbv zeta. split; [vm_compute; discriminate|].
  split; [vm_compute; reflexivity|].
  apply (Acquire_windows_do_not_overlap _
           (Examples.open_window 1 1 Examples.T0) Mock.clock
           (Mock.at_time (Examples.T0 + 250 * Millisecond))
           (Mock.at_time (Examples.T0 + 250 * Millisecond))
           (Examples.T0 + 250 * Millisecond)
           eq_refl eq_refl eq_refl eq_refl eq_refl).
  - vm_compute. discriminate.
  - intros d.
    cbn [fst Now Sleep Mock.clock Mock.mock_Now Mock.mock_Sleep
         Mock.currentTime Mock.at_time].
    unfold Add. apply Z.le_refl.
Defined.

(** ** What one call asks of its clock *)

(** X6.  [Acquire] on a throttler with a clock and a free mutex reads the
    clock at most twice and sleeps at most once: it makes no call at all, or
    one [Now], or [Now], [Sleep], [Now] in that order. *)
Theorem Acquire_clock_calls
        (W : Type) (t : Throttler W) (c : Clock W) (w : W) :
  sync.locked (mu t) = false ->
  clock t = Some c ->
  calls (Acquire t w) = [] \/
  (exists now, calls (Acquire t w) = [CallNow now]) \/
  (exists now d now',
      calls (Acquire t w) = [CallNow now; CallSleep d; CallNow now']).
Proof.
  intros Hmu Hc. destruct (N.eq_dec (limit t) 0) as [Hl|Hl].
  - left. rewrite Acquire_pass_through by assumption. reflexivity.
  - right. rewrite (Acquire_limited t c w Hmu Hc Hl).
    destruct (Now c w) as [now w1]. cbv zeta.
    destruct (windowSize <? _); [left; eexists; reflexivity|].
    destruct (_ <=? _)%N; [left; eexists; reflexivity|].
    destruct (Now c (Sleep c _ w1)) as [now' w2].
    right. do 3 eexists. reflexivity.
Qed.

Lemma Acquire_clock_calls_witness :
  let t := Examples.open_window 1 1 Examples.T0 in
  let w := Mock.at_time (Examples.T0 + 250 * Millisecond) in
  (sync.locked (mu t) = false /\ clock t = Some Mock.clock) /\
  (calls (Acquire t w) = [] \/
   (exists now, calls (Acquire t w) = [CallNow now]) \/
   (exists now d now',
       calls (Acquire t w) = [CallNow now; CallSleep d; CallNow now'])).
Proof.
  cbv zeta. split; [split; reflexivity|].
  apply (Acquire_clock_calls _ (Examples.open_window 1 1 Examples.T0)
           Mock.clock); reflexivity.
Defined.

(** X7.  A clock that has not run backwards since the window opened ([window
    <= now], or no window yet): whatever [Acquire] sleeps is between 0 and
    [windowSize]. *)
Theorem Acquire_sleeps_at_most_one_window
        (W : Type) (t : Throttler W) (c : Clock W) (w w1 : W) (now : Time) :
  sync.locked (mu t) = false ->
  clock t = Some c ->
  Now c w = (now, w1) ->
  IsZero (window t) = true \/ window t <= now ->
  forall d, In (CallSleep d) (calls (Acquire t w)) ->
            0 <= d <= windowSize.
Proof.
  intros Hmu Hc Hnow Hmono d.
  destruct (N.eq_dec (limit t) 0) as [Hl|Hl].
  - rewrite Acquire_pass_through by assumption. intros [].
  - rewrite (Acquire_limited t c w Hmu Hc Hl). rewrite Hnow. cbv zeta.
    set (t1 := if IsZero (window t) then set_window t now else t).
    assert (Hw1 : window t1 <= now).
    { subst t1. destruct (IsZero (window t)) eqn:Hz.
      - simpl. lia.
      - destruct Hmono as [Hu|Hm]; [congruence | exact Hm]. }
    destruct (Z.ltb_spec windowSize (Sub now (window t1))) as [Hexp|Hin].
    { simpl. intros [H|[]]. discriminate. }
    destruct (_ <=? _)%N.
    { simpl. intros [H|[]]. discriminate. }
    assert (Hexact : Sub now (window t1) = now - window t1).
    { revert Hin. unfold Sub, minDuration, maxDuration, windowSize, Second.
      destruct (Z.ltb_spec (now - window t1) (- 2 ^ 63)); [lia|].
      destruct (Z.ltb_spec (2 ^ 63 - 1) (now - window t1)); lia. }
    destruct (Now c (Sleep c _ w1)) as [now' w2].
    simpl. intros [H|[H|[H|[]]]]; try discriminate.
    injection H as <-.
    unfold int64_sub. rewrite wrap_int64_exact.
    + rewrite Hexact in *. lia.
    + rewrite Hexact in *.
      unfold windowSize, Second, minDuration, maxDuration in *. lia.
Qed.

Lemma Acquire_sleeps_at_most_one_window_witness :
  let t := Examples.open_window 1 1 Examples.T0 in
  let w := Mock.at_time (Examples.T0 + 250 * Millisecond) in
  (window t <= Examples.T0 + 250 * Millisecond /\
   In (CallSleep (750 * Millisecond)) (calls (Acquire t w))) /\
  0 <= 750 * Millisecond <= windowSize.
Proof.
  cbv zeta.
  assert (Hin : In (CallSleep (750 * Millisecond))
                   (calls (Acquire (Examples.open_window 1 1 Examples.T0)
                             (Mock.at_time
                                (Examples.T0 + 250 * Millisecond)))))
    by (right; left; reflexivity).
  split; [split; [vm_compute; discriminate | exact Hin]|].
  apply (Acquire_sleeps_at_most_one_window _
           (Examples.open_window 1 1 Examples.T0) Mock.clock
           (Mock.at_time (Examples.T0 + 250 * Millisecond))
           (Mock.at_time (Examples.T0 + 250 * Millisecond))
           (Examples.T0 + 250 * Millisecond)
           eq_refl eq_refl eq_refl).
  - right. vm_compute. discriminate.
  - exact Hin.
Defined.

(** ** Edges of the integer arithmetic *)

(** X8.  A clock that stepped back behind the window start: the call still
    counts against that window, and a caller who finds it full sleeps
    [windowSize] plus the step back, longer than a window; the new window
    starts at what [Now] answers after that sleep, with counter 1. *)
Theorem Acquire_backwards_clock_sleeps_longer
        (W : Type) (t : Throttler W) (c : Clock W) (w w1 : W) (now : Time) :
  sync.locked (mu t) = false ->
  clock t = Some c ->
  (0 < limit t)%N ->
  IsZero (window t) = false ->
  Now c w = (now, w1) ->
  now < window t ->
  window t - now <= maxDuration - windowSize ->
  (limit t < uint64_add (counter t) 1)%N ->
  let dur := windowSize + (window t - now) in
  let now' := fst (Now c (Sleep c dur w1)) in
  windowSize < dur /\
  exists t',
    Acquire t w =
      mkRun (Returns t') (snd (Now c (Sleep c dur w1)))
            [CallNow now; CallSleep dur; CallNow now'] /\
    window t' = now' /\ counter t' = 1%N /\ limit t' = limit t.
Proof.
  intros Hmu Hc Hpos Hopen Hnow Hback Hrange Hfull dur now'.
  split; [subst dur; unfold windowSize, Second; lia|].
  rewrite (Acquire_limited t c w Hmu Hc) by lia.
  rewrite Hnow, Hopen. cbv zeta.
  assert (Hsub : Sub now (window t) = now - window t).
  { unfold Sub, minDuration, maxDuration, windowSize, Second in *.
    destruct (Z.ltb_spec (now - window t) (- 2 ^ 63)); [lia|].
    destruct (Z.ltb_spec (2 ^ 63 - 1) (now - window t)); lia. }
  rewrite Hsub.
  destruct (Z.ltb_spec windowSize (now - window t)) as [Hexp|_].
  { exfalso. unfold windowSize, Second in Hexp. lia. }
  destruct (N.leb_spec (uint64_add (counter t) 1) (limit t)); [lia|].
  assert (Hdur : int64_sub windowSize (now - window t) = dur).
  { unfold int64_sub. rewrite wrap_int64_exact; [subst dur; ring|].
    unfold minDuration, maxDuration, windowSize, Second in *. lia. }
  rewrite Hdur. subst now'.
  destruct (Now c (Sleep c dur w1)) as [now' w2].
  eexists. split; [reflexivity|].
  cbn [fst window counter limit reset set_counter set_window].
  repeat (split; [reflexivity|]). reflexivity.
Qed.

(** A full window that opened at [T0 + 1s], read by a clock that went back
    to [T0 + 750ms]: the caller sleeps 1250ms. *)
Lemma Acquire_backwards_clock_sleeps_longer_witness :
  let t := Examples.open_window 1 1 (Examples.T0 + Second) in
  let w := Mock.at_time (Examples.T0 + 750 * Millisecond) in
  (Examples.T0 + 750 * Millisecond < window t /\
   (limit t < uint64_add (counter t) 1)%N) /\
  exists t',
    Acquire t w =
      mkRun (Returns t')
            (Examples.mock_at (Examples.T0 + 2 * Second)
                              [1250 * Millisecond])
            [CallNow (Examples.T0 + 750 * Millisecond);
             CallSleep (1250 * Millisecond);
             CallNow (Examples.T0 + 2 * Second)] /\
    window t' = Examples.T0 + 2 * Second /\ counter t' = 1%N.
Proof.
  cbv zeta. split; [split; reflexivity|].
  assert (Hback : Examples.T0 + 750 * Millisecond < Examples.T0 + Second)
    by (vm_compute; reflexivity).
  assert (Hrange : Examples.T0 + Second -
                   (Examples.T0 + 750 * Millisecond) <=
                   maxDuration - windowSize)
    by (vm_compute; discriminate).
  assert (Hfull : (1 < uint64_add 1 1)%N) by (vm_compute; reflexivity).
  destruct (Acquire_backwards_clock_sleeps_longer _
              (Examples.open_window 1 1 (Examples.T0 + Second)) Mock.clock
              (Mock.at_time (Examples.T0 + 750 * Millisecond))
              (Mock.at_time (Examples.T0 + 750 * Millisecond))
              (Examples.T0 + 750 * Millisecond)
              eq_refl eq_refl eq_refl eq_refl eq_refl Hback Hrange Hfull)
    as (_ & t' & Hrun & Hwin & Hcnt & _).
  exists t'. split; [exact Hrun|]. split; [exact Hwin | exact Hcnt].
Defined.

(** X9.  With the largest [uint64] as limit the window is never full, because
    [nextCount] cannot exceed it: [Acquire] never sleeps, whatever the
    counter, the window and the clock. *)
Theorem Acquire_max_limit_never_sleeps
        (W : Type) (t : Throttler W) (c : Clock W) (w : W) :
  sync.locked (mu t) = false ->
  clock t = Some c ->
  limit t = uint64_max ->
  forall d, ~ In (CallSleep d) (calls (Acquire t w)).
Proof.
  intros Hmu Hc Hl d.
  rewrite (Acquire_limited t c w Hmu Hc)
    by (rewrite Hl; discriminate).
  destruct (Now c w) as [now w1]. cbv zeta.
  destruct (windowSize <? _).
  { simpl. intros [H|[]]. discriminate. }
  destruct (N.leb_spec (uint64_add (counter t) 1) (limit t)) as [_|Hfull].
  { simpl. intros [H|[]]. discriminate. }
  exfalso. rewrite Hl in Hfull. unfold uint64_add, uint64_max in Hfull.
  pose proof (N.mod_upper_bound (counter t + 1) 18446744073709551616)
    as Hb.
  assert (18446744073709551616 <> 0)%N as Hnz by discriminate.
  specialize (Hb Hnz). lia.
Qed.

Lemma Acquire_max_limit_never_sleeps_witness :
  let t := Examples.open_window uint64_max uint64_max Examples.T0 in
  let w := Mock.at_time Examples.T0 in
  limit t = uint64_max /\
  forall d, ~ In (CallSleep d) (calls (Acquire t w)).
Proof.
  cbv zeta. split; [reflexivity|].
  apply (Acquire_max_limit_never_sleeps _
           (Examples.open_window uint64_max uint64_max Examples.T0)
           Mock.clock (Mock.at_time Examples.T0));
    reflexivity.
Defined.

(** ** Bursts and paced calls on the test double *)

Lemma burst_on_mock_within_limit_witness :
  let cs := Burst.completions Mock.clock 5 (Examples.mock_throttler 2)
                              (Mock.at_time Examples.T0) in
  ((0 < 2)%N /\ (2 < uint64_max)%N) /\
  length cs = 5%nat /\
  forall k : Z, (Burst.completions_in Examples.T0 k cs <= N.to_nat 2)%nat.
Proof.
  cbv zeta. split; [split; reflexivity|].
  apply (burst_on_mock_within_limit 2 5 Examples.T0); reflexivity.
Defined.

Section BurstState.

Variable L : N.
Hypothesis L_pos : (0 < L)%N.
Hypothesis L_uint64 : (L < uint64_max)%N.

Lemma burst_state_from (n : nat) :
  forall (win : Time) (c : N) (sl : list Duration),
    (1 <= c <= L)%N ->
    let m := Z.of_N c - 1 + Z.of_nat n in
    let r := Caller.Acquire_times n (Examples.open_window L c win)
                                  (Examples.mock_at win sl) in
    res r = Returns (Examples.open_window L
                       (Z.to_N (m mod Z.of_N L + 1))
                       (win + m / Z.of_N L * Second)) /\
    world r = Examples.mock_at (win + m / Z.of_N L * Second)
                (sl ++ repeat Second (Z.to_nat (m / Z.of_N L))).
Proof.
  induction n as [|n IH]; intros win c sl Hc; cbv zeta.
  - cbn [Caller.Acquire_times ret res world].
    replace (Z.of_N c - 1 + Z.of_nat 0) with (Z.of_N c - 1) by lia.
    rewrite Z.mod_small, Z.div_small by lia.
    replace (Z.to_N (Z.of_N c - 1 + 1)) with c by lia.
    cbn [Z.to_nat repeat]. rewrite app_nil_r, Z.mul_0_l, Z.add_0_r.
    split; reflexivity.
  - cbn [Caller.Acquire_times].
    destruct (N.eq_dec c L) as [->|Hne].
    + rewrite (bind_Returns _ _ _ _ _ _
                 (burst_step_full L L_pos L_uint64 win sl)).
      cbn [res world].
      destruct (IH (win + Second) 1%N (sl ++ [Second])) as [Hr Hw]; [lia|].
      cbv zeta in Hr, Hw.
      replace (Z.of_N 1 - 1 + Z.of_nat n) with (Z.of_nat n) in Hr, Hw
        by lia.
      replace (Z.of_N L - 1 + Z.of_nat (S n))
        with (Z.of_nat n + 1 * Z.of_N L) by lia.
      rewrite Z.mod_add, Z.div_add by lia.
      assert (Hq : 0 <= Z.of_nat n / Z.of_N L) by (apply Z.div_pos; lia).
      rewrite Hr, Hw. split.
      * do 2 f_equal. unfold Time. lia.
      * replace (Z.to_nat (Z.of_nat n / Z.of_N L + 1))
          with (S (Z.to_nat (Z.of_nat n / Z.of_N L))) by lia.
        cbn [repeat]. rewrite <- app_assoc. cbn [app].
        f_equal. unfold Time. lia.
    + rewrite (bind_Returns _ _ _ _ _ _
                 (burst_step_room L L_pos L_uint64 win c sl
                    ltac:(lia))).
      cbn [res world].
      destruct (IH win (c + 1)%N sl) as [Hr Hw]; [lia|].
      cbv zeta in Hr, Hw.
      replace (Z.of_N (c + 1) - 1 + Z.of_nat n)
        with (Z.of_N c - 1 + Z.of_nat (S n)) in Hr, Hw by lia.
      rewrite Hr, Hw. split; reflexivity.
Qed.

End BurstState.

(** X10.  A burst on the test double, in closed form: after [n + 1] calls in a
    row on a fresh throttler with limit [L], the mock has been slept on [n /
    L] times, one second each, its time is that many seconds after the start,
    and the throttler's window starts at that time with [n mod L + 1]
    admissions. *)
Theorem burst_on_mock_state (L : N) (n : nat) (T : Time) :
  (0 < L)%N ->
  (L < uint64_max)%N ->
  let q := Z.of_nat n / Z.of_N L in
  let r := Caller.Acquire_times (S n) (Examples.mock_throttler L)
                                (Mock.at_time T) in
  res r = Returns (Examples.open_window L
                     (Z.to_N (Z.of_nat n mod Z.of_N L + 1))
                     (T + q * Second)) /\
  world r = Examples.mock_at (T + q * Second)
                             (repeat Second (Z.to_nat q)).
Proof.
  intros Hpos Hmax. cbv zeta. cbn [Caller.Acquire_times].
  change (Mock.at_time T) with (Examples.mock_at T []).
  rewrite (bind_Returns _ _ _ _ _ _ (burst_first L Hpos Hmax T [])).
  cbn [res world].
  destruct (burst_state_from L Hpos Hmax n T 1%N []) as [Hr Hw]; [lia|].
  cbv zeta in Hr, Hw.
  replace (Z.of_N 1 - 1 + Z.of_nat n) with (Z.of_nat n) in Hr, Hw by lia.
  rewrite Hr, Hw. split; reflexivity.
Qed.

Lemma burst_on_mock_state_witness :
  let r := Caller.Acquire_times 6 (Examples.mock_throttler 2)
                                (Mock.at_time Examples.T0) in
  ((0 < 2)%N /\ (2 < uint64_max)%N) /\
  res r = Returns (Examples.open_window 2 2 (Examples.T0 + 2 * Second)) /\
  world r = Examples.mock_at (Examples.T0 + 2 * Second) [Second; Second].
Proof.
  cbv zeta. split; [split; reflexivity|].
  apply (burst_on_mock_state 2 5 Examples.T0); reflexivity.
Defined.

Section PacedCalls.

Variable L : N.
Hypothesis L_pos : (0 < L)%N.

Lemma paced_step (win now : Time) (c : N) (sl : list Duration) :
  IsZero win = false ->
  Second < now - win ->
  Acquire (Examples.open_window L c win) (Examples.mock_at now sl) =
    mkRun (Returns (Examples.open_window L 1 now))
          (Examples.mock_at now sl) [CallNow now].
Proof.
  intros Hopen Hgap.
  rewrite (Acquire_limited (Examples.open_window L c win) Mock.clock
             (Examples.mock_at now sl) eq_refl eq_refl) by (simpl; lia).
  cbn [Now Mock.clock Mock.mock_Now Examples.mock_at Mock.currentTime].
  change (window (Examples.open_window L c win)) with win.
  rewrite Hopen. cbv zeta.
  change (window (Examples.open_window L c win)) with win.
  destruct (Z.ltb_spec windowSize (Sub now win)) as [_|Hin];
    [reflexivity|].
  exfalso. revert Hin.
  unfold Sub, minDuration, maxDuration, windowSize, Second in *.
  destruct (Z.ltb_spec (now - win) (- 2 ^ 63)); [lia|].
  destruct (Z.ltb_spec (2 ^ 63 - 1) (now - win)); lia.
Qed.

Lemma paced_first (now : Time) (sl : list Duration) :
  Acquire (Examples.mock_throttler L) (Examples.mock_at now sl) =
    mkRun (Returns (Examples.open_window L 1 now))
          (Examples.mock_at now sl) [CallNow now].
Proof.
  rewrite (Acquire_limited (Examples.mock_throttler L) Mock.clock
             (Examples.mock_at now sl) eq_refl eq_refl) by (simpl; lia).
  cbn [Now Mock.clock Mock.mock_Now Examples.mock_at Mock.currentTime].
  change (IsZero (window (Examples.mock_throttler L))) with true.
  cbv iota zeta.
  change (window (set_window (Examples.mock_throttler L) now)) with now.
  rewrite Sub_self.
  change (windowSize <? 0) with false. cbv iota.
  change (uint64_add (counter (Examples.mock_throttler L)) 1) with 1%N.
  change (limit (Examples.mock_throttler L)) with L.
  destruct (N.leb_spec 1 L); [reflexivity | lia].
Qed.

Lemma paced_completions_from (gaps : list Duration) :
  forall (win : Time) (c : N) (sl : list Duration),
    Forall (fun gap => Second < gap) gaps ->
    0 < win ->
    Burst.spaced_completions Mock.clock gaps
      (Examples.open_window L c win) (Examples.mock_at win sl) =
    Traffic.arrivals win gaps.
Proof.
  induction gaps as [|gap rest IH]; intros win c sl Hgaps Hwin;
    [reflexivity|].
  inversion Hgaps as [|g r Hgap Hrest]; subst.
  cbn [Burst.spaced_completions Traffic.arrivals].
  change (Sleep Mock.clock gap (Examples.mock_at win sl))
    with (Examples.mock_at (Add win gap) (sl ++ [gap])).
  rewrite paced_step.
  - cbn [res world Now Mock.clock Mock.mock_Now].
    cbn [fst snd Examples.mock_at Mock.currentTime].
    change {| Mock.currentTime := Add win gap;
              Mock.sleepCalls := sl ++ [gap] |}
      with (Examples.mock_at (Add win gap) (sl ++ [gap])).
    rewrite IH; [reflexivity | assumption |].
    unfold Add, Second in *. lia.
  - unfold IsZero. apply Z.eqb_neq. lia.
  - unfold Add. lia.
Qed.

End PacedCalls.

(** X11.  Callers slower than the window are never held back.  On the test
    double, with a positive limit and a positive start time, calls each more
    than a second after the one before complete the instant they arrive. *)
Theorem paced_calls_are_not_delayed
        (L : N) (gaps : list Duration) (T : Time) :
  (0 < L)%N ->
  0 < T ->
  Forall (fun gap => Second < gap) gaps ->
  Burst.spaced_completions Mock.clock gaps (Examples.mock_throttler L)
                           (Mock.at_time T) =
    Traffic.arrivals T gaps.
Proof.
  intros Hpos HT Hgaps.
  destruct gaps as [|gap rest]; [reflexivity|].
  inversion Hgaps as [|g r Hgap Hrest]; subst.
  cbn [Burst.spaced_completions Traffic.arrivals].
  change (Sleep Mock.clock gap (Mock.at_time T))
    with (Examples.mock_at (Add T gap) ([] ++ [gap])).
  rewrite (paced_first L Hpos).
  cbn [res world Now Mock.clock Mock.mock_Now].
  cbn [fst snd Examples.mock_at Mock.currentTime].
  change {| Mock.currentTime := Add T gap;
            Mock.sleepCalls := [] ++ [gap] |}
    with (Examples.mock_at (Add T gap) ([] ++ [gap])).
  rewrite (paced_completions_from L Hpos); [reflexivity | assumption |].
  unfold Add, Second in *. lia.
Qed.

Lemma paced_calls_are_not_delayed_witness :
  let gaps := [1500 * Millisecond; 2 * Second; 1001 * Millisecond] in
  Forall (fun gap => Second < gap) gaps /\
  Burst.spaced_completions Mock.clock gaps (Examples.mock_throttler 1)
                           (Mock.at_time Examples.T0) =
    [Examples.T0 + 1500 * Millisecond; Examples.T0 + 3500 * Millisecond;
     Examples.T0 + 4501 * Millisecond].
Proof.
  cbv zeta.
  assert (H : Forall (fun gap => Second < gap)
                [1500 * Millisecond; 2 * Second; 1001 * Millisecond])
    by (repeat constructor).
  split; [exact H|].
  rewrite (paced_calls_are_not_delayed 1 _ Examples.T0 eq_refl eq_refl H).
  reflexivity.
Defined.

(** ** The other revisions *)

Section RevisionEquations.

Context {W : Type}.
Variable sys : Clock W.

Lemma wrap_int64_bounds (z : Z) :
  minDuration <= wrap_int64 z <= maxDuration.
Proof.
  unfold wrap_int64, minDuration, maxDuration.
  pose proof (Z.mod_pos_bound (z + 2 ^ 63) (2 ^ 64) eq_refl). lia.
Qed.

Lemma int64_add_0_r (a b : Z) : int64_add (int64_sub a b) 0 = int64_sub a b.
Proof.
  unfold int64_add, int64_sub. rewrite Z.add_0_r.
  apply wrap_int64_exact, wrap_int64_bounds.
Qed.

Lemma Generic_advance_eq (t : ThrottleGeneric.Throttler) (w : W) :
  ThrottleGeneric.advance sys t w =
    let (now, w1) := Now sys w in
    let t1 := if IsZero (ThrottleGeneric.window t)
              then ThrottleGeneric.set_window t now else t in
    let sinceLastCall := Sub now (ThrottleGeneric.window t1) in
    if Second <? sinceLastCall
    then mkRun (Returns (ThrottleGeneric.reset t1 now)) w1 [CallNow now]
    else
      let nextCount := uint64_add (ThrottleGeneric.counter t) 1 in
      if (nextCount <=? ThrottleGeneric.limit t)%N
      then mkRun (Returns (ThrottleGeneric.set_counter t1 nextCount)) w1
                 [CallNow now]
      else
        let dur := int64_sub Second sinceLastCall in
        let (now', w2) := Now sys (Sleep sys dur w1) in
        mkRun (Returns (ThrottleGeneric.reset t1 now')) w2
              [CallNow now; CallSleep dur; CallNow now'].
Proof.
  destruct t as [m win cnt lim].
  unfold ThrottleGeneric.advance, bind, invoke_Now at 1. simpl.
  destruct (Now sys w) as [now w1]. simpl.
  destruct (IsZero win); simpl;
    (destruct (Second <? _); simpl; [reflexivity|]);
    (destruct (_ <=? lim)%N; simpl; [reflexivity|]);
    destruct (Now sys (Sleep sys _ w1)) as [now' w2]; reflexivity.
Qed.

Lemma advance_default_clock_eq (t : Throttler W) (w : W) :
  clock t = Some (DefaultClock sys) ->
  limit t <> 0%N ->
  advance t w =
    let (now, w1) := Now sys w in
    let t1 := if IsZero (window t) then set_window t now else t in
    let windowDur := Sub now (window t1) in
    if windowSize <? windowDur
    then mkRun (Returns (reset t1 now)) w1 [CallNow now]
    else
      let nextCount := uint64_add (counter t) 1 in
      if (nextCount <=? limit t)%N
      then mkRun (Returns (set_counter t1 nextCount)) w1 [CallNow now]
      else
        let sleepDur := int64_sub windowSize windowDur in
        let (now', w2) := Now sys (Sleep sys sleepDur w1) in
        mkRun (Returns (reset t1 now')) w2
              [CallNow now; CallSleep sleepDur; CallNow now'].
Proof.
  intros Hc Hl. destruct t as [m win clk cnt lim]. simpl in *. subst clk.
  unfold advance. simpl.
  destruct (N.eqb_spec lim 0) as [|_]; [contradiction|].
  unfold bind, invoke_Now at 1. simpl.
  destruct (Now sys w) as [now w1]. simpl.
  destruct (IsZero win); simpl;
    (destruct (windowSize <? _); simpl; [reflexivity|]);
    (destruct (_ <=? lim)%N; simpl; [reflexivity|]);
    destruct (Now sys (Sleep sys _ w1)) as [now' w2]; reflexivity.
Qed.


End RevisionEquations.

(** X12.  The generic revision has no pass-through: with limit 0, a call that
    finds the window unexpired (or unset) sleeps out what is left of it and
    opens a window with counter 1 at what [Now] answers then, so a zero limit
    admits one call per window instead of all of them. *)
Theorem generic_zero_limit_still_waits
        (W : Type) (sys : Clock W) (t : ThrottleGeneric.Throttler)
        (w w1 : W) (now : Time) :
  ThrottleGeneric.limit t = 0%N ->
  (ThrottleGeneric.counter t < uint64_max)%N ->
  Now sys w = (now, w1) ->
  let t1 := if IsZero (ThrottleGeneric.window t)
            then ThrottleGeneric.set_window t now else t in
  let elapsed := Sub now (ThrottleGeneric.window t1) in
  let dur := int64_sub Second elapsed in
  let now' := fst (Now sys (Sleep sys dur w1)) in
  elapsed <= Second ->
  exists t',
    ThrottleGeneric.advance sys t w =
      mkRun (Returns t') (snd (Now sys (Sleep sys dur w1)))
            [CallNow now; CallSleep dur; CallNow now'] /\
    ThrottleGeneric.window t' = now' /\
    ThrottleGeneric.counter t' = 1%N /\
    ThrottleGeneric.limit t' = 0%N.
Proof.
  intros Hl Hcnt Hnow t1 elapsed dur now' Hin.
  rewrite Generic_advance_eq, Hnow. cbv zeta. fold t1. fold elapsed.
  destruct (Z.ltb_spec Second elapsed); [lia|].
  rewrite uint64_add_exact by (unfold uint64_max in *; lia).
  rewrite Hl.
  destruct (N.leb_spec (ThrottleGeneric.counter t + 1) 0); [lia|].
  fold dur. subst now'.
  destruct (Now sys (Sleep sys dur w1)) as [now' w2].
  eexists. split; [reflexivity|].
  assert (Hl1 : ThrottleGeneric.limit t1 = 0%N).
  { subst t1. destruct (IsZero (ThrottleGeneric.window t)); exact Hl. }
  cbn [fst ThrottleGeneric.window ThrottleGeneric.counter
       ThrottleGeneric.limit ThrottleGeneric.reset
       ThrottleGeneric.set_counter ThrottleGeneric.set_window].
  split; [reflexivity|]. split; [reflexivity | exact Hl1].
Qed.

(** The first call on [New(0)] of the generic revision sleeps a second. *)
Lemma generic_zero_limit_still_waits_witness :
  let t := ThrottleGeneric.New 0 in
  let w := Mock.at_time Examples.T0 in
  ThrottleGeneric.limit t = 0%N /\
  exists t',
    ThrottleGeneric.advance Mock.clock t w =
      mkRun (Returns t') (Examples.mock_at (Examples.T0 + Second) [Second])
            [CallNow Examples.T0; CallSleep Second;
             CallNow (Examples.T0 + Second)] /\
    ThrottleGeneric.window t' = Examples.T0 + Second /\
    ThrottleGeneric.counter t' = 1%N.
Proof.
  cbv zeta. split; [reflexivity|].
  assert (Hin : Sub Examples.T0 Examples.T0 <= Second)
    by (vm_compute; discriminate).
  destruct (generic_zero_limit_still_waits _ Mock.clock
              (ThrottleGeneric.New 0) (Mock.at_time Examples.T0)
              (Mock.at_time Examples.T0) Examples.T0
              eq_refl eq_refl eq_refl Hin)
    as (t' & Hrun & Hwin & Hcnt & _).
  exists t'. split; [exact Hrun|]. split; [exact Hwin | exact Hcnt].
Defined.



(** X14.  The clock-offset revision with limit 0: [Do] passes through before
    it looks at the clock or at [clockOffset], so it yields what [fn] yields
    in the world as it was, makes no clock call of its own and leaves the
    throttler as it was, also when [clockOffset] is nil. *)
Theorem Do_unlimited_skips_the_offset
        (W : Type) (sys : Clock W) (T Err : Type)
        (t : ThrottleOffset.Throttler)
        (fn : ThrottleOffset.Fn T Err) (w : W) :
  sync.locked (ThrottleOffset.mu t) = false ->
  ThrottleOffset.limit t = 0%N ->
  ThrottleOffset.Do sys T Err t fn w =
    mkRun (outcome_map (fun r => (t, r)) (res (fn w)))
          (world (fn w)) (calls (fn w)).
Proof.
  intros Hmu Hl. destruct t as [m win off cnt lim]. simpl in *.
  apply mutex_unlocked in Hmu. subst.
  unfold ThrottleOffset.Do.
  erewrite bind_Returns by reflexivity.
  erewrite bind_Returns by reflexivity.
  erewrite bind_Returns by reflexivity.
  cbn [res world calls app].
  unfold bind. destruct (fn w) as [[r| |] wf cf]; cbn [res world calls ret];
    rewrite ?app_nil_r; reflexivity.
Qed.

Lemma Do_unlimited_skips_the_offset_witness :
  let t := ThrottleOffset.New 0 [] in
  let w := Mock.at_time Examples.T0 in
  (ThrottleOffset.limit t = 0%N /\ ThrottleOffset.clockOffset t = None) /\
  ThrottleOffset.Do Mock.clock Z (option nat) t Examples.fn_ok w =
    mkRun (Returns (t, (42, None))) w [].
Proof.
  cbv zeta. split; [split; reflexivity|].
  rewrite (Do_unlimited_skips_the_offset _ Mock.clock Z (option nat)
             (ThrottleOffset.New 0 []) Examples.fn_ok
             (Mock.at_time Examples.T0) eq_refl eq_refl).
  reflexivity.
Defined.

(** X15.  The clock offset of a throttler is the provider of the last
    [WithDynamicClockOffset] among the options, a nil provider included: a
    later option overrides every earlier one, and nothing puts a default in
    the place of nil. *)
Theorem New_offset_last_option_wins
        (lim : N) (setters : list ThrottleOffset.Option)
        (provider : option ThrottleOffset.ClockOffsetProvider) :
  ThrottleOffset.clockOffset
    (ThrottleOffset.New lim
       (setters ++ [ThrottleOffset.WithDynamicClockOffset provider])) =
    provider.
Proof.
  unfold ThrottleOffset.New, ThrottleOffset.buildOptions.
  cbn [ThrottleOffset.clockOffset].
  rewrite fold_left_app. reflexivity.
Qed.

(** ** The revisions against each other *)

(** X16.  For a positive limit the generic revision admits exactly as the
    current one does on the default clock: [advance] of either makes the same
    clock calls, leaves the same world and the same mutex, window, counter and
    limit. *)
Theorem generic_advance_is_advance_on_the_default_clock
        (W : Type) (sys : Clock W) (t : Throttler W) (w : W) :
  clock t = Some (DefaultClock sys) ->
  limit t <> 0%N ->
  let a := advance t w in
  let g := ThrottleGeneric.advance sys (Revisions.to_generic t) w in
  res g = outcome_map Revisions.to_generic (res a) /\
  world g = world a /\
  calls g = calls a.
Proof.
  intros Hc Hl. cbv zeta.
  rewrite (advance_default_clock_eq sys t w Hc Hl), Generic_advance_eq.
  destruct t as [m win clk cnt lim]. unfold Revisions.to_generic.
  cbn [mu window clock counter limit ThrottleGeneric.window
       ThrottleGeneric.counter ThrottleGeneric.limit].
  unfold windowSize.
  destruct (Now sys w) as [now w1]. cbv zeta.
  destruct (IsZero win);
    cbn [window set_window ThrottleGeneric.window
         ThrottleGeneric.set_window];
    (destruct (Second <? _); [repeat split|]);
    (destruct (_ <=? lim)%N; [repeat split|]);
    destruct (Now sys (Sleep sys _ w1)) as [now' w2]; repeat split.
Qed.

Lemma generic_advance_is_advance_on_the_default_clock_witness :
  let t := New Mock.clock 1 [] in
  let w := Mock.at_time Examples.T0 in
  (clock t = Some (DefaultClock Mock.clock) /\ limit t <> 0%N) /\
  calls (ThrottleGeneric.advance Mock.clock (Revisions.to_generic t) w) =
    calls (advance t w).
Proof.
  cbv zeta. split; [split; [reflexivity | discriminate]|].
  apply (generic_advance_is_advance_on_the_default_clock _ Mock.clock
           (New Mock.clock 1 []) (Mock.at_time Examples.T0) eq_refl).
  discriminate.
Defined.

Lemma Wait_eq (W : Type) (sys : Clock W) (t : ThrottleWait.Throttler)
      (w : W) :
  sync.locked (ThrottleWait.mu t) = false ->
  ThrottleWait.Wait sys t w =
    let (now, w1) := Now sys w in
    let t1 := if IsZero (ThrottleWait.window t)
              then ThrottleWait.set_window t now else t in
    let sinceLastCall := Sub now (ThrottleWait.window t1) in
    if Second <? sinceLastCall
    then mkRun (Returns (ThrottleWait.reset t1 now)) w1 [CallNow now]
    else
      let nextCount := uint64_add (ThrottleWait.counter t) 1 in
      if (nextCount <=? ThrottleWait.limit t)%N
      then mkRun (Returns (ThrottleWait.set_counter t1 nextCount)) w1
                 [CallNow now]
      else
        let leftInWindow := int64_sub Second sinceLastCall in
        let (now', w2) := Now sys (Sleep sys leftInWindow w1) in
        mkRun (Returns (ThrottleWait.reset t1 now')) w2
              [CallNow now; CallSleep leftInWindow; CallNow now'].
Proof.
  intros Hmu. destruct t as [m win cnt lim]. simpl in *.
  apply mutex_unlocked in Hmu. subst.
  unfold ThrottleWait.Wait. simpl.
  unfold bind, invoke_Now at 1. simpl.
  destruct (Now sys w) as [now w1]. simpl.
  destruct (IsZero win); simpl;
    (destruct (Second <? _); simpl; [reflexivity|]);
    (destruct (_ <=? lim)%N; simpl; [reflexivity|]);
    destruct (Now sys (Sleep sys _ w1)) as [now' w2]; reflexivity.
Qed.

(** X17.  For a positive limit [Wait] of the earliest revision is [Acquire] of
    the current one on the default clock: the same outcome, the same clock
    calls, the same world, the same state. *)
Theorem Wait_is_Acquire_on_the_default_clock
        (W : Type) (sys : Clock W) (t : Throttler W) (w : W) :
  clock t = Some (DefaultClock sys) ->
  limit t <> 0%N ->
  let a := Acquire t w in
  let v := ThrottleWait.Wait sys (Revisions.to_wait t) w in
  res v = outcome_map Revisions.to_wait (res a) /\
  world v = world a /\
  calls v = calls a.
Proof.
  intros Hc Hl. cbv zeta.
  destruct (sync.locked (mu t)) eqn:Hmu.
  - unfold Acquire, ThrottleWait.Wait, Revisions.to_wait.
    cbn [ThrottleWait.mu].
    rewrite (bind_Blocks (sync.Lock (mu t)) _ w w [])
      by (unfold sync.Lock; rewrite Hmu; reflexivity).
    rewrite (bind_Blocks (sync.Lock (mu t)) _ w w [])
      by (unfold sync.Lock; rewrite Hmu; reflexivity).
    repeat split.
  - rewrite (Acquire_limited t (DefaultClock sys) w Hmu Hc Hl).
    rewrite Wait_eq by exact Hmu.
    destruct t as [m win clk cnt lim]. unfold Revisions.to_wait.
    cbn [mu window clock counter limit ThrottleWait.window
         ThrottleWait.counter ThrottleWait.limit Now Sleep DefaultClock].
    unfold windowSize.
    destruct (Now sys w) as [now w1]. cbv zeta.
    destruct (IsZero win);
      cbn [window set_window ThrottleWait.window
           ThrottleWait.set_window];
      (destruct (Second <? _); [repeat split|]);
      (destruct (_ <=? lim)%N; [repeat split|]);
      destruct (Now sys (Sleep sys _ w1)) as [now' w2]; repeat split.
Qed.

Lemma Wait_is_Acquire_on_the_default_clock_witness :
  let t := New Mock.clock 1 [] in
  let w := Mock.at_time Examples.T0 in
  (clock t = Some (DefaultClock Mock.clock) /\ limit t <> 0%N) /\
  world (ThrottleWait.Wait Mock.clock (Revisions.to_wait t) w) =
    world (Acquire t w).
Proof.
  cbv zeta. split; [split; [reflexivity | discriminate]|].
  apply (Wait_is_Acquire_on_the_default_clock _ Mock.clock
           (New Mock.clock 1 []) (Mock.at_time Examples.T0) eq_refl).
  discriminate.
Defined.

(** X18.  The clock-offset revision with an offset that is always zero admits
    exactly as the current revision does on the default clock, for every
    limit, zero included: both pass a zero limit through. *)
Theorem zero_offset_advance_is_advance
        (W : Type) (sys : Clock W) (t : Throttler W)
        (provider : ThrottleOffset.ClockOffsetProvider) (w : W) :
  clock t = Some (DefaultClock sys) ->
  (forall d, provider d = 0) ->
  let a := advance t w in
  let o := ThrottleOffset.advance sys
             (Revisions.to_offset (Some provider) t) w in
  res o = outcome_map (Revisions.to_offset (Some provider)) (res a) /\
  world o = world a /\
  calls o = calls a.
Proof.
  intros Hc Hzero. cbv zeta.
  destruct (N.eq_dec (limit t) 0) as [Hl|Hl].
  - unfold advance, ThrottleOffset.advance.
    cbn [Revisions.to_offset ThrottleOffset.limit]. rewrite Hl.
    repeat split.
  - rewrite (advance_default_clock_eq sys t w Hc Hl).
    rewrite Offset_advance_limited by exact Hl.
    destruct t as [m win clk cnt lim]. unfold Revisions.to_offset.
    cbn [mu window clock counter limit ThrottleOffset.window
         ThrottleOffset.counter ThrottleOffset.limit
         ThrottleOffset.clockOffset].
    unfold windowSize, ThrottleOffset.windowSize.
    destruct (Now sys w) as [now w1]. cbv zeta.
    destruct (IsZero win);
      cbn [window set_window ThrottleOffset.window
           ThrottleOffset.set_window];
      (destruct (Second <? _); [repeat split|]);
      (destruct (_ <=? lim)%N; [repeat split|]);
      rewrite Hzero, int64_add_0_r;
      destruct (Now sys (Sleep sys _ w1)) as [now' w2]; repeat split.
Qed.

Lemma zero_offset_advance_is_advance_witness :
  let t := New Mock.clock 1 [] in
  let w := Mock.at_time Examples.T0 in
  clock t = Some (DefaultClock Mock.clock) /\
  calls (ThrottleOffset.advance Mock.clock
           (Revisions.to_offset (Some (fun _ => 0)) t) w) =
    calls (advance t w).
Proof.
  cbv zeta. split; [reflexivity|].
  apply (zero_offset_advance_is_advance _ Mock.clock
           (New Mock.clock 1 []) (fun _ => 0)
           (Mock.at_time Examples.T0) eq_refl).
  reflexivity.
Defined.

(** ** Requests through the round tripper *)

Section BindOutcomes.

Context {W A B : Type}.

Lemma bind_res_Panics (m : M W A) (k : A -> M W B) (w : W) :
  res (m w) = Panics ->
  bind m k w = mkRun Panics (world (m w)) (calls (m w)).
Proof. unfold bind. intros ->. reflexivity. Qed.

Lemma bind_res_Blocks (m : M W A) (k : A -> M W B) (w : W) :
  res (m w) = Blocks ->
  bind m k w = mkRun Blocks (world (m w)) (calls (m w)).
Proof. unfold bind. intros ->. reflexivity. Qed.

End BindOutcomes.

Section ImmediateTransport.

Context {W : Type}.
Variables Request Response Err : Type.

Variable h : Request -> Response * Err.

Lemma RoundTrip_immediate (th : Throttler W) (request : Request) (w : W) :
  let a := Acquire th w in
  let tr := Traffic.immediate Request Response Err h in
  let r := RoundTrip Request Response Err
             (NewRoundTripperWith _ _ _ tr th) request w in
  res r = outcome_map
            (fun th' => (NewRoundTripperWith _ _ _ tr th', h request))
            (res a) /\
  world r = world a.
Proof.
  cbv zeta. unfold RoundTrip, Traffic.immediate.
  cbn [throttler transport NewRoundTripperWith].
  destruct (res (Acquire th w)) as [th1| |] eqn:Ha.
  - rewrite (bind_res_Returns _ _ _ _ Ha). cbv zeta. cbn [res world].
    split; reflexivity.
  - rewrite (bind_res_Panics _ _ _ Ha). split; reflexivity.
  - rewrite (bind_res_Blocks _ _ _ Ha). split; reflexivity.
Qed.

Lemma RoundTrip_all_immediate (requests : list Request) :
  forall (th : Throttler W) (w : W),
    let a := Caller.Acquire_times (length requests) th w in
    let tr := Traffic.immediate Request Response Err h in
    let r := Traffic.RoundTrip_all Request Response Err
               (NewRoundTripperWith _ _ _ tr th) requests w in
    res r = outcome_map
              (fun th' => (NewRoundTripperWith _ _ _ tr th', map h requests))
              (res a) /\
    world r = world a.
Proof.
  induction requests as [|request rest IH]; intros th w; cbv zeta.
  - split; reflexivity.
  - cbn [Traffic.RoundTrip_all length Caller.Acquire_times map].
    destruct (RoundTrip_immediate th request w) as [Hr Hw].
    cbv zeta in Hr, Hw.
    destruct (res (Acquire th w)) as [th1| |] eqn:Ha;
      cbn [outcome_map] in Hr.
    + rewrite (bind_res_Returns _ _ _ _ Hr), (bind_res_Returns _ _ _ _ Ha).
      cbv zeta. cbn [res world fst snd]. rewrite Hw.
      destruct (IH th1 (world (Acquire th w))) as [Hr' Hw'].
      cbv zeta in Hr', Hw'.
      destruct (res (Caller.Acquire_times (length rest) th1
                       (world (Acquire th w)))) as [th2| |] eqn:Ha';
        cbn [outcome_map] in Hr' |- *.
      * rewrite (bind_res_Returns _ _ _ _ Hr'). cbv zeta.
        cbn [res world fst snd ret]. split; [reflexivity | exact Hw'].
      * rewrite (bind_res_Panics _ _ _ Hr'). cbn [res world].
        split; [reflexivity | exact Hw'].
      * rewrite (bind_res_Blocks _ _ _ Hr'). cbn [res world].
        split; [reflexivity | exact Hw'].
    + rewrite (bind_res_Panics _ _ _ Hr), (bind_res_Panics _ _ _ Ha).
      cbn [res world outcome_map]. split; [reflexivity | exact Hw].
    + rewrite (bind_res_Blocks _ _ _ Hr), (bind_res_Blocks _ _ _ Ha).
      cbn [res world outcome_map]. split; [reflexivity | exact Hw].
Qed.

End ImmediateTransport.

(** X19.  Requests sent one after the other through a round tripper on the
    test double, limit [L], to a transport that answers at once: every request
    gets the transport's own answer, in order, and for [n + 1] requests the
    mock has been slept on [n / L] times, one second each; the round tripper
    that comes back has the same transport and a throttler whose window starts
    at the mock's time, with [n mod L + 1] admissions. *)
Theorem RoundTrip_burst_on_mock
        (Request Response Err : Type) (h : Request -> Response * Err)
        (L : N) (first : Request) (rest : list Request) (T : Time) :
  (0 < L)%N ->
  (L < uint64_max)%N ->
  let requests := first :: rest in
  let n := Z.of_nat (length rest) in
  let q := n / Z.of_N L in
  let tr := Traffic.immediate Request Response Err h in
  let rt := NewRoundTripper Mock.clock Request Response Err tr L
              [WithClock (Some Mock.clock)] in
  let r := Traffic.RoundTrip_all Request Response Err rt requests
             (Mock.at_time T) in
  res r = Returns (NewRoundTripperWith Request Response Err tr
                     (Examples.open_window L
                        (Z.to_N (n mod Z.of_N L + 1)) (T + q * Second)),
                   map h requests) /\
  world r = Examples.mock_at (T + q * Second) (repeat Second (Z.to_nat q)).
Proof.
  intros Hpos Hmax. cbv zeta.
  change (NewRoundTripper Mock.clock Request Response Err
            (Traffic.immediate Request Response Err h) L
            [WithClock (Some Mock.clock)])
    with (NewRoundTripperWith Request Response Err
            (Traffic.immediate Request Response Err h)
            (Examples.mock_throttler L)).
  destruct (RoundTrip_all_immediate Request Response Err h (first :: rest)
              (Examples.mock_throttler L) (Mock.at_time T)) as [Hr Hw].
  cbv zeta in Hr, Hw. cbn [length Caller.Acquire_times] in Hr, Hw.
  change (Mock.at_time T) with (Examples.mock_at T []) in Hr, Hw.
  rewrite (bind_Returns _ _ _ _ _ _ (burst_first L Hpos Hmax T []))
    in Hr, Hw.
  cbn [res world] in Hr, Hw.
  destruct (burst_state_from L Hpos Hmax (length rest) T 1%N [])
    as [Hs Hws]; [lia|].
  cbv zeta in Hs, Hws.
  replace (Z.of_N 1 - 1 + Z.of_nat (length rest))
    with (Z.of_nat (length rest)) in Hs, Hws by lia.
  rewrite Hs in Hr. rewrite Hws in Hw. cbn [outcome_map] in Hr.
  split; [exact Hr | exact Hw].
Qed.

(** Limit 2 and three requests, the numbers of [TestNewRoundTripper], on
    the test double: all three are answered and the mock has slept one
    second. *)
Lemma RoundTrip_burst_on_mock_witness :
  let h := fun request : Z => (request + 1, @None nat) in
  let tr := Traffic.immediate Z Z (option nat) h in
  let rt := NewRoundTripper Mock.clock Z Z (option nat) tr 2
              [WithClock (Some Mock.clock)] in
  let r := Traffic.RoundTrip_all Z Z (option nat) rt [10; 20; 30]
             (Mock.at_time Examples.T0) in
  ((0 < 2)%N /\ (2 < uint64_max)%N) /\
  res r = Returns (NewRoundTripperWith Z Z (option nat) tr
                     (Examples.open_window 2 1 (Examples.T0 + Second)),
                   [(11, None); (21, None); (31, None)])
  /\ world r = Examples.mock_at (Examples.T0 + Second) [Second].
Proof.
  cbv zeta. split; [split; reflexivity|].
  apply (RoundTrip_burst_on_mock Z Z (option nat)
           (fun request : Z => (request + 1, @None nat)) 2 10 [20; 30]
           Examples.T0); reflexivity.
Defined.

(** X20.  A round tripper built with limit 0 is transparent: [RoundTrip]
    yields what the transport yields in the world as it was, makes no clock
    call of its own, and is the same round tripper afterwards. *)
Theorem RoundTrip_unlimited_is_transparent
        (W : Type) (sys : Clock W) (Request Response Err : Type)
        (transport : RoundTripper Request Response Err)
        (setters : list (Option W)) (request : Request) (w : W) :
  let rt := NewRoundTripper sys Request Response Err transport 0 setters in
  let f := transport request w in
  RoundTrip Request Response Err rt request w =
    mkRun (outcome_map (fun r => (rt, r)) (res f)) (world f) (calls f).
Proof.
  cbv zeta. unfold RoundTrip.
  cbn [throttler Throttle.transport NewRoundTripper NewRoundTripperWith].
  rewrite (bind_Returns _ _ _ _ _ _
             (Acquire_pass_through (New sys 0 setters) w
                eq_refl eq_refl)).
  cbn [res world calls app].
  unfold bind. destruct (transport request w) as [[r| |] wf cf];
    cbn [res world calls ret]; rewrite ?app_nil_r; reflexivity.
Qed.
